(** * Finanzen-Macros: the simulation frontend, the plotting notebooks
      and the layers around them

    The development follows the repository's parts:
    - [JS]        static/js/CLIArgument.js (the argument object of the form);
    - [Frontend]  templates/app/simulation-view.html (the two async handlers);
    - [Plotter]   finance_plotter.ipynb, the scenario functions;
    - [Notebook]  finance_plotter.ipynb, the cells of both revisions;
    - [Macros], [Backend]  the layers whose code is described by the
      specification only. *)

From Stdlib Require Import ZArith List String Bool Lia Reals Lra.
From Equations Require Import Equations.
From stdpp Require Import gmap strings list fin_maps.
From stdpp Require Import pretty.
Import ListNotations.

Set Default Proof Using "Type".
Set Warnings "-register-all".

(** ** JavaScript values and [CLIArgument] *)

Module JS.

(** The values that reach the frontend code: form inputs give strings and
    booleans, [prompt] gives a string or [null], a missing property reads as
    [undefined]; numbers, arrays and objects come from parsed JSON. *)
Inductive JSValue : Type :=
| JSUndefined
| JSNull
| JSBool (b : bool)
| JSNumber (n : Z)
| JSString (s : string)
| JSArray (items : list JSValue)
| JSObject (fields : list (string * JSValue)).

(** [v === undefined] *)
Definition is_undefined (v : JSValue) : bool :=
  match v with JSUndefined => true | _ => false end.

(** What an async function is rejected with. *)
Inductive JSError : Type :=
| TypeError      (* a property of [undefined] or [null] is read; [fetch] fails *)
| SyntaxError.   (* [response.json()] on a body that is not JSON *)

(** [obj.key] on a parsed JSON value: the field of that name (the last one,
    should the text repeat a name), [undefined] when there is none or the
    value is no object, and a TypeError on [undefined] and [null]. *)
Definition get_field (key : string) (fields : list (string * JSValue)) : JSValue :=
  fold_left (fun found kv => if String.eqb (fst kv) key then snd kv else found)
            fields JSUndefined.

Definition property (v : JSValue) (key : string) : JSError + JSValue :=
  match v with
  | JSUndefined | JSNull => inl TypeError
  | JSObject fields => inr (get_field key fields)
  | _ => inr JSUndefined
  end.

(** class CLIArgument { key; display_name; type; value; default_value; } *)
Record CLIArgument : Type := mkCLIArgument {
  key : JSValue;
  display_name : JSValue;
  type : JSValue;
  value : JSValue;
  default_value : JSValue
}.

(** [this.value = value] *)
Definition assign_value (this : CLIArgument) (v : JSValue) : CLIArgument :=
  {| key := key this; display_name := display_name this; type := type this;
     value := v; default_value := default_value this |}.

(** The depth of the recursion of [setValue]: the call on [undefined] makes
    one call on [null], which makes none. *)
Definition setValue_depth (v : JSValue) : nat :=
  if is_undefined v then 1 else 0.

(** setValue(value) {
      if (value === undefined) { this.setValue(null); }
      this.value = value;
    }
    The object is threaded through: the recursive call mutates [this], and
    the assignment after it acts on the mutated object. *)
Equations? setValue (this : CLIArgument) (v : JSValue) : CLIArgument
  by wf (setValue_depth v) lt :=
  setValue this JSUndefined := assign_value (setValue this JSNull) JSUndefined;
  setValue this v := assign_value this v.
Proof. unfold setValue_depth; simpl; lia. Qed.

(** static fromJSON(arg) {
      return new CLIArgument(arg.key, arg.display_name, arg.type, undefined,
                             arg.default_value);
    } *)
Definition fromJSON (arg : JSValue) : JSError + CLIArgument :=
  match property arg "key", property arg "display_name",
        property arg "type", property arg "default_value" with
  | inr k, inr d, inr t, inr dv => inr (mkCLIArgument k d t JSUndefined dv)
  | _, _, _, _ => inl TypeError
  end.

End JS.

(** ** The simulation page: templates/app/simulation-view.html *)

Module Frontend.
Import JS.

(** The two URLs the page fetches, with their query parameters. The
    parameters are kept as values; [URLSearchParams] and [JSON.stringify]
    turn them into text on the wire. *)
Inductive Request : Type :=
| Simulate (simulation_type : string) (args : list CLIArgument)
| GetSimulationResults (identifier : JSValue).

(** What the handlers read of a response: [response.ok], the body as
    [response.text()] gives it, and the body as [response.json()] parses it
    ([None] when the body is not JSON). *)
Record Response : Type := mkResponse {
  ok : bool;
  text : string;
  json : option JSValue
}.

(** The views behind the URLs are not part of the page. A server answers a
    request knowing the requests made before it (oldest first), so that an
    answer may change from one request to the next; [None] is a fetch that
    fails. *)
Definition Server : Type := list Request -> Request -> option Response.

(** The elements the script touches, all present in the template:
    the texts of #simulation-id and #simulation-status and what Plotly
    drew into #line-plot and #table-plot ([None]: nothing drawn yet). *)
Record Page : Type := mkPage {
  simulation_id : JSValue;
  simulation_status : string;
  line_plot : option JSValue;
  table_plot : option JSValue
}.

(** <span id="simulation-id">N/A</span>, <span id="simulation-status">Ready</span>,
    and two empty divs. *)
Definition initial_page : Page :=
  mkPage (JSString "N/A") "Ready" None None.

(** The page together with what left it: the alerts shown and the requests
    sent, oldest first. *)
Record Browser : Type := mkBrowser {
  page : Page;
  alerts : list string;
  requests : list Request
}.

Definition initial_browser : Browser := mkBrowser initial_page [] [].

(** An async handler run to its end: it returns or is rejected, and leaves
    a browser state. *)
Definition Handler (A : Type) : Type := Browser -> (JSError + A) * Browser.

Definition ret {A} (a : A) : Handler A := fun b => (inr a, b).

Definition throw {A} (e : JSError) : Handler A := fun b => (inl e, b).

Definition bind {A B} (m : Handler A) (k : A -> Handler B) : Handler B :=
  fun b =>
    match m b with
    | (inl e, b') => (inl e, b')
    | (inr a, b') => k a b'
    end.

Definition lift {A} (r : JSError + A) : Handler A := fun b => (r, b).

Declare Scope handler_scope.
Delimit Scope handler_scope with handler.
Notation "x <- m ;; k" := (bind m (fun x => k))
  (at level 100, m at next level, right associativity) : handler_scope.
Notation "m ;; k" := (bind m (fun _ => k))
  (at level 100, right associativity) : handler_scope.
Local Open Scope handler_scope.

(** document.getElementById("simulation-status").innerText = s *)
Definition set_status (s : string) : Handler unit := fun b =>
  let p := page b in
  (inr tt,
   mkBrowser (mkPage (simulation_id p) s (line_plot p) (table_plot p))
             (alerts b) (requests b)).

(** document.getElementById("simulation-id").innerText = v *)
Definition set_id (v : JSValue) : Handler unit := fun b =>
  let p := page b in
  (inr tt,
   mkBrowser (mkPage v (simulation_status p) (line_plot p) (table_plot p))
             (alerts b) (requests b)).

(** Plotly.newPlot(document.getElementById("line-plot"), data) *)
Definition newPlot_line (data : JSValue) : Handler unit := fun b =>
  let p := page b in
  (inr tt,
   mkBrowser (mkPage (simulation_id p) (simulation_status p) (Some data) (table_plot p))
             (alerts b) (requests b)).

(** Plotly.newPlot(document.getElementById("table-plot"), data) *)
Definition newPlot_table (data : JSValue) : Handler unit := fun b =>
  let p := page b in
  (inr tt,
   mkBrowser (mkPage (simulation_id p) (simulation_status p) (line_plot p) (Some data))
             (alerts b) (requests b)).

(** alert(msg) *)
Definition alert (msg : string) : Handler unit := fun b =>
  (inr tt, mkBrowser (page b) (alerts b ++ [msg]) (requests b)).

(** await fetch(url): the request is logged and the server answers. *)
Definition fetch (server : Server) (rq : Request) : Handler Response := fun b =>
  let b' := mkBrowser (page b) (alerts b) (requests b ++ [rq]) in
  match server (requests b) rq with
  | Some r => (inr r, b')
  | None => (inl TypeError, b')
  end.

(** await response.json() *)
Definition response_json (r : Response) : Handler JSValue :=
  match json r with
  | Some v => ret v
  | None => throw SyntaxError
  end.

(** async function getResults(identifier) *)
Definition getResults (server : Server) (identifier : JSValue) : Handler unit :=
  set_status "Retrieving results" ;;
  response <- fetch server (GetSimulationResults identifier) ;;
  if negb (ok response) then
    alert ("Error: " ++ text response)
  else
    parsed <- response_json response ;;
    data <- lift (property parsed "data") ;;
    line <- lift (property data "line") ;;
    newPlot_line line ;;
    data <- lift (property parsed "data") ;;
    table <- lift (property data "table") ;;
    newPlot_table table ;;
    set_status "Done".

(** async function simulate(args), with the template's
    simulation_type.key as a parameter *)
Definition simulate (server : Server) (simulation_type : string)
    (args : list CLIArgument) : Handler unit :=
  set_status "Simulating" ;;
  set_id (JSString "pending") ;;
  response <- fetch server (Simulate simulation_type args) ;;
  if negb (ok response) then
    alert ("Error: " ++ text response)
  else
    data <- response_json response ;;
    identifier <- lift (property data "identifier") ;;
    set_id identifier ;;
    getResults server identifier.

(** async function getResultsForIdentifier(), with the answer to
    prompt("Enter identifier") as a parameter: a string, or [null] when the
    dialog is cancelled. *)
Definition getResultsForIdentifier (server : Server) (answer : JSValue)
    : Handler unit :=
  match answer with
  | JSNull => ret tt
  | identifier => getResults server identifier
  end.

Definition is_results_request (rq : Request) : bool :=
  match rq with GetSimulationResults _ => true | Simulate _ _ => false end.

(** The requests for results among the requests sent. *)
Definition results_requests (b : Browser) : list Request :=
  List.filter is_results_request (requests b).

(** The server has the results of [identifier] for a request made after
    the requests [log]. *)
Definition results_ready (server : Server) (identifier : JSValue)
    (log : list Request) : Prop :=
  exists r, server log (GetSimulationResults identifier) = Some r /\ ok r = true.

(** Polling, as a property of one run of [simulate] from the browser state
    [b]: when the server accepts the simulation with an identifier and has
    the results from some number of requests on, the requests for results
    are all for that identifier, and the run ends on one that was answered
    with the results. *)
Definition polls_until_available (server : Server) (simulation_type : string)
    (args : list CLIArgument) (b : Browser) : Prop :=
  forall r data identifier,
    server (requests b) (Simulate simulation_type args) = Some r ->
    ok r = true ->
    json r = Some data ->
    property data "identifier" = inr identifier ->
    (exists n, forall log, n <= length log -> results_ready server identifier log) ->
    let b' := snd (simulate server simulation_type args b) in
    (forall rq, In rq (results_requests b') -> rq = GetSimulationResults identifier) /\
    exists log, requests b' = log ++ [GetSimulationResults identifier] /\
                results_ready server identifier log.

(** A server that accepts every simulation as "sim-1" and has its results
    from the third request on. *)
Definition slow_server : Server := fun log rq =>
  match rq with
  | Simulate _ _ =>
      Some (mkResponse true "" (Some (JSObject [("identifier", JSString "sim-1")])))
  | GetSimulationResults _ =>
      if 2 <=? length log then
        Some (mkResponse true ""
                (Some (JSObject [("data", JSObject [("line", JSArray []);
                                                    ("table", JSArray [])])])))
      else
        Some (mkResponse false "Simulation not finished" None)
  end.

(** A server that refuses everything. *)
Definition refusing_server : Server := fun _ _ =>
  Some (mkResponse false "Bad request" None).

End Frontend.

(** ** The plotting notebook: the scenario functions *)

Module Plotter.

(** A float in exact real arithmetic: a real number, or [None] where the
    operation has no real value (numpy answers nan or an infinity there).
    [None] is absorbing, except under a power with exponent zero. *)
Definition pyfloat : Type := option R.

Inductive PyError : Type :=
| IndexError          (* [.iloc] on an empty series *)
| KeyError            (* a column that is not in the frame *)
| ZeroDivisionError.  (* a division of Python ints by zero *)

Definition float_add (x y : pyfloat) : pyfloat :=
  match x, y with
  | Some a, Some b => Some (a + b)%R
  | _, _ => None
  end.

Definition float_sub (x y : pyfloat) : pyfloat :=
  match x, y with
  | Some a, Some b => Some (a - b)%R
  | _, _ => None
  end.

Definition float_mul (x y : pyfloat) : pyfloat :=
  match x, y with
  | Some a, Some b => Some (a * b)%R
  | _, _ => None
  end.

(** [x / y] on numpy floats: no exception, and no real value when [y] is 0. *)
Definition float_div (x y : pyfloat) : pyfloat :=
  match x, y with
  | Some a, Some b => if Req_dec_T b 0 then None else Some (a / b)%R
  | _, _ => None
  end.

(** [x ** y] for a real base: [x ** 0] is 1 for every [x]; a positive base
    has every power; [0 ** y] is 0 for [y > 0] and has no real value for
    [y < 0]; a negative base has its integer powers only. *)
Definition real_pow (x y : R) : pyfloat :=
  if Req_dec_T y 0 then Some 1%R
  else if Rlt_dec 0 x then Some (Rpower x y)
  else if Req_dec_T x 0 then (if Rlt_dec 0 y then Some 0%R else None)
  else if Req_dec_T (IZR (Int_part y)) y then Some (powerRZ x (Int_part y))
  else None.

(** [x ** y] with a numpy float as the base, as the values taken from a
    column are, and a real exponent (both exponents in the notebook are
    quotients of Python ints); [nan ** 0] is 1 as well. numpy raises nothing
    here; with a Python float as the base, Python raises where this power
    has no value or overflows. *)
Definition float_pow (x : pyfloat) (y : R) : pyfloat :=
  if Req_dec_T y 0 then Some 1%R
  else match x with
       | Some a => real_pow a y
       | None => None
       end.

(** The frame read from the CSV file: the parsed "Datum" column, each date
    as its day number, and the numeric columns by name. *)
Record DataFrame : Type := mkDataFrame {
  Datum : list Z;
  columns : gmap string (list pyfloat)
}.

(** [data[key]] *)
Definition getitem (data : DataFrame) (key : string) : PyError + list pyfloat :=
  match columns data !! key with
  | Some series => inr series
  | None => inl KeyError
  end.

(** [data[key] = series] *)
Definition setitem (data : DataFrame) (key : string) (series : list pyfloat)
    : DataFrame :=
  mkDataFrame (Datum data) (<[key := series]> (columns data)).

(** [series.iloc[0]] and [series.iloc[-1]] *)
Definition iloc_first {A} (series : list A) : PyError + A :=
  match head series with
  | Some x => inr x
  | None => inl IndexError
  end.

Definition iloc_last {A} (series : list A) : PyError + A :=
  match last series with
  | Some x => inr x
  | None => inl IndexError
  end.

Definition bind {A B} (m : PyError + A) (k : A -> PyError + B) : PyError + B :=
  match m with
  | inl e => inl e
  | inr a => k a
  end.

Declare Scope py_scope.
Delimit Scope py_scope with py.
Notation "x <- m ;; k" := (bind m (fun x => k))
  (at level 100, m at next level, right associativity) : py_scope.
Local Open Scope py_scope.

(** A list comprehension whose element expression may raise. *)
Fixpoint comprehension {A B} (f : A -> PyError + B) (l : list A)
    : PyError + list B :=
  match l with
  | [] => inr []
  | x :: rest =>
      y <- f x ;;
      ys <- comprehension f rest ;;
      inr (y :: ys)
  end.

(** FIXED_SCENARIO_RETURN = .07 *)
Definition FIXED_SCENARIO_RETURN : pyfloat := Some (7 / 100)%R.

(** days_list = [(data["Datum"].iloc[i] - data["Datum"].iloc[0]).days
                 for i in range(len(data["Datum"]))] *)
Definition days_list (data : DataFrame) : list Z :=
  match Datum data with
  | [] => []
  | d0 :: _ => List.map (fun d => (d - d0)%Z) (Datum data)
  end.

(** def get_avg_return_scenario(data, avg_return, data_key="Depotwert"):
        days_list = ...
        return [data[data_key].iloc[0] * (1 + avg_return) ** ((i / 365))
                for i in days_list] *)
Definition get_avg_return_scenario (data : DataFrame) (avg_return : pyfloat)
    (data_key : string) : PyError + list pyfloat :=
  comprehension
    (fun i : Z =>
       series <- getitem data data_key ;;
       v0 <- iloc_first series ;;
       inr (float_mul v0
              (float_pow (float_add (Some 1%R) avg_return) (IZR i / 365)%R)))
    (days_list data).

(** def load_data(filename), from the frame that [pd.read_csv] returns:
        avg_return = (df["Depotwert"].iloc[-1] / df["Depotwert"].iloc[0]) ** (
                365 / (df["Datum"].iloc[-1] - df["Datum"].iloc[0]).days) - 1
        df["Avg scenario"] = get_avg_return_scenario(df, avg_return)
        df["Fixed scenario"] = get_avg_return_scenario(df, FIXED_SCENARIO_RETURN)
        return df, avg_return *)
Definition load_data (df : DataFrame) : PyError + (DataFrame * pyfloat) :=
  depot <- getitem df "Depotwert" ;;
  vn <- iloc_last depot ;;
  depot <- getitem df "Depotwert" ;;
  v0 <- iloc_first depot ;;
  dn <- iloc_last (Datum df) ;;
  d0 <- iloc_first (Datum df) ;;
  let days := (dn - d0)%Z in
  if (days =? 0)%Z then inl ZeroDivisionError
  else
    let avg_return :=
      float_sub (float_pow (float_div vn v0) (365 / IZR days)%R) (Some 1%R) in
    avg <- get_avg_return_scenario df avg_return "Depotwert" ;;
    let df := setitem df "Avg scenario" avg in
    fixed <- get_avg_return_scenario df FIXED_SCENARIO_RETURN "Depotwert" ;;
    let df := setitem df "Fixed scenario" fixed in
    inr (df, avg_return).

(** The claim on one frame: [load_data] returns, and the scenario of the
    average return it computed ends on the last value of "Depotwert". *)
Definition avg_scenario_ends_on_last_value (df : DataFrame) : Prop :=
  exists df' avg_return scenario depot vn,
    load_data df = inr (df', avg_return) /\
    get_avg_return_scenario df avg_return "Depotwert" = inr scenario /\
    getitem df "Depotwert" = inr depot /\
    last depot = Some (Some vn) /\
    last scenario = Some (Some vn).

(** Two rows two years apart, the depot going from 1 to -1. *)
Definition negative_frame : DataFrame :=
  mkDataFrame [0; 730]%Z {[ "Depotwert" := [Some 1%R; Some (-1)%R] ]}.

(** Two rows one year apart, the depot going from 100 to 110. *)
Definition growing_frame : DataFrame :=
  mkDataFrame [0; 365]%Z {[ "Depotwert" := [Some 100%R; Some 110%R] ]}.

End Plotter.

(** ** The plotting notebook: its cells *)

Module Notebook.

Inductive Source : Type := NetWorthHistory | DepotHistory | CsvFile.

Inductive ChartKind : Type :=
| Gauge | Table | Line | Area | Pie | Histogram | Bubble.

#[global] Instance Source_eq_dec : EqDecision Source.
Proof. solve_decision. Defined.

#[global] Instance ChartKind_eq_dec : EqDecision ChartKind.
Proof. solve_decision. Defined.

(** Where a loader is told to read: the value of a global name, a literal
    path, or the argument of the enclosing function. *)
Inductive Location : Type :=
| InVariable (name : string)
| AtPath (path : string)
| Argument.

(** An expression, by what evaluating it does: the global names it reads
    (each once, in the order of their first use), the functions defined in the notebook it calls (each with its argument
    when that is a string literal), the loaders and the chart constructors it
    calls, whether it ends in [.show()], and its text when it is a string
    literal. Parameters and local names of a function body are not global
    names. *)
Record Expr : Type := mkExpr {
  reads : list string;
  calls : list (string * option string);
  loads : list (string * Location);
  draws : list string;
  shows : bool;
  literal : option string
}.

Inductive Stmt : Type :=
| Shell (command : string)                        (* a line starting with ! or % *)
| Import (module : string) (names : list string)
| Assign (targets : list string) (e : Expr)
| Expression (e : Expr)
| Update (target : string) (e : Expr)             (* target.method(e), changing target *)
| Def (name : string) (annotations : list string) (body : Expr)
| For (var : string) (iter : Expr) (times : nat) (body : list Stmt)
| Pass.

(** A markdown cell, by its heading, or a code cell. *)
Inductive Cell : Type :=
| Markdown (heading : string)
| Code (source : list Stmt).

(** Modelled from the spec: the module data_visualization of the repository,
    from which the notebook imports get_net_worth_history, get_depot_history
    and graphs, is not among the sources. What a loader reads is taken from
    its name and from the specification (net-worth and portfolio history);
    pd.read_csv is pandas'. *)
Definition loader_source (function : string) : option Source :=
  if String.eqb function "get_net_worth_history" then Some NetWorthHistory
  else if String.eqb function "get_depot_history" then Some DepotHistory
  else if String.eqb function "pd.read_csv" then Some CsvFile
  else None.

(** Modelled from the spec: the functions of data_visualization.graphs are not
    among the sources. The chart a function returns is taken from its name
    (gauge, line plot, area plot, pie, histogram, bubble chart); for the
    constructors of Plotly it is the trace type they build, a scatter trace
    being a line plot unless it is drawn with markers sized by the data. *)
Definition chart_of (constructor : string) : option ChartKind :=
  let named := String.eqb constructor in
  if named "graphs.get_net_worth_gauge" then Some Gauge
  else if named "graphs.get_fortune_history_line_plot" then Some Line
  else if named "graphs.get_fortune_history_area_plot" then Some Area
  else if named "graphs.get_current_fortune_proposition_pie" then Some Pie
  else if named "graphs.get_depot_value_fluctuation_histogram" then Some Histogram
  else if named "graphs.get_net_worth_bubble_chart" then Some Bubble
  else if named "graphs.get_depot_proposition_by_shares_pie" then Some Pie
  else if named "graphs.get_depot_proposition_by_value_pie" then Some Pie
  else if named "graphs.get_quotes_history_line_plot" then Some Line
  else if named "graphs.get_depot_proposition_history_line_plot" then Some Line
  else if named "graphs.get_depot_value_history_line_plot" then Some Line
  else if named "graphs.get_depot_value_history_area_plot" then Some Area
  else if named "go.Indicator" then Some Gauge
  else if named "go.Table" then Some Table
  else if named "go.Scatter" then Some Line
  else if named "go.Scatter(mode='markers')" then Some Bubble
  else if named "go.Pie" then Some Pie
  else if named "px.area" then Some Area
  else if named "px.histogram" then Some Histogram
  else None.

(** The builtins the cells use. *)
Definition builtins : list string :=
  ["range"; "len"; "round"; "sorted"; "list"; "dict"; "float"; "str"].

(** What the kernel knows of a value: the sources its data came from, the
    charts it holds, its text when it is a string, its body when it is a
    function of the notebook. *)
Record Object : Type := mkObject {
  sources : list Source;
  charts : list ChartKind;
  text : option string;
  body : option Expr
}.

Definition plain : Object := mkObject [] [] None None.

(** What running a statement leaves behind. *)
Inductive Effect : Type :=
| Ran (command : string)
| Imported (module name : string)
| Defined (function : string)
| Bound (name : string) (from : list Source) (holding : list ChartKind)
| Loaded (source : Source) (location : option string)
| Shown (holding : list ChartKind) (from : list Source).

Inductive PyError : Type :=
| NameError (name : string)
| TypeError (name : string)     (* calling what is no function or no known loader *)
| RecursionError.

Definition Namespace : Type := gmap string Object.

Definition bind {A B} (m : PyError + A) (k : A -> PyError + B) : PyError + B :=
  match m with
  | inl e => inl e
  | inr a => k a
  end.

Declare Scope nb_scope.
Delimit Scope nb_scope with nb.
Notation "x <- m ;; k" := (bind m (fun x => k))
  (at level 100, m at next level, right associativity) : nb_scope.
Local Open Scope nb_scope.

Fixpoint for_each {A B} (f : A -> PyError + B) (l : list A) : PyError + list B :=
  match l with
  | [] => inr []
  | x :: rest =>
      y <- f x ;;
      ys <- for_each f rest ;;
      inr (y :: ys)
  end.

(** Reading a name: the globals first, then the builtins. *)
Definition lookup_name (ns : Namespace) (name : string) : PyError + Object :=
  match ns !! name with
  | Some o => inr o
  | None =>
      if existsb (String.eqb name) builtins then inr plain
      else inl (NameError name)
  end.

Definition resolve (ns : Namespace) (argument : option string) (loc : Location)
    : option string :=
  match loc with
  | InVariable name =>
      match ns !! name with
      | Some o => text o
      | None => None
      end
  | AtPath path => Some path
  | Argument => argument
  end.

Definition load_one (ns : Namespace) (argument : option string)
    (l : string * Location) : PyError + (Source * option string) :=
  match loader_source (fst l) with
  | Some s => inr (s, resolve ns argument (snd l))
  | None => inl (TypeError (fst l))
  end.

Definition draw_one (constructor : string) : PyError + ChartKind :=
  match chart_of constructor with
  | Some k => inr k
  | None => inl (TypeError constructor)
  end.

Definition recursion_limit : nat := 1000.

(** Evaluating an expression, [argument] being the string the enclosing
    function was called with: the value and the effects, or the exception. *)
Fixpoint eval (depth : nat) (ns : Namespace) (argument : option string)
    (e : Expr) : PyError + (Object * list Effect) :=
  match depth with
  | O => inl RecursionError
  | S depth' =>
      objects <- for_each (lookup_name ns) (reads e) ;;
      returned <- for_each
        (fun call =>
           o <- lookup_name ns (fst call) ;;
           match body o with
           | Some b => eval depth' ns (snd call) b
           | None => inl (TypeError (fst call))
           end)
        (calls e) ;;
      loaded <- for_each (load_one ns argument) (loads e) ;;
      drawn <- for_each draw_one (draws e) ;;
      let from :=
        remove_dups (List.map fst loaded ++ concat (List.map sources objects)
                       ++ concat (List.map (fun r => sources (fst r)) returned)) in
      let holding :=
        remove_dups (drawn ++ concat (List.map charts objects)
                       ++ concat (List.map (fun r => charts (fst r)) returned)) in
      inr (mkObject from holding (literal e) None,
           concat (List.map snd returned)
             ++ List.map (fun l => Loaded (fst l) (snd l)) loaded
             ++ (if shows e then [Shown holding from] else []))
  end.

(** The kernel while a cell runs: the globals, and the effects of the cell
    so far. *)
Record Kernel : Type := mkKernel {
  namespace : Namespace;
  trace : list Effect
}.

Definition emit (effects : list Effect) (k : Kernel) : Kernel :=
  mkKernel (namespace k) (trace k ++ effects).

Definition bind_name (name : string) (o : Object) (k : Kernel) : Kernel :=
  mkKernel (<[name := o]> (namespace k))
           (trace k ++ [Bound name (sources o) (charts o)]).

Definition merge (o o' : Object) : Object :=
  mkObject (remove_dups (sources o ++ sources o'))
           (remove_dups (charts o ++ charts o')) (text o) (body o).

(** Running one statement. *)
Fixpoint exec (s : Stmt) (k : Kernel) {struct s} : PyError + Kernel :=
  match s with
  | Shell command => inr (emit [Ran command] k)
  | Import module names =>
      inr (fold_left
             (fun k name =>
                mkKernel (<[name := plain]> (namespace k))
                         (trace k ++ [Imported module name]))
             names k)
  | Assign targets e =>
      r <- eval recursion_limit (namespace k) None e ;;
      inr (fold_left (fun k name => bind_name name (fst r) k) targets
             (emit (snd r) k))
  | Expression e =>
      r <- eval recursion_limit (namespace k) None e ;;
      inr (emit (snd r) k)
  | Update target e =>
      o <- lookup_name (namespace k) target ;;
      r <- eval recursion_limit (namespace k) None e ;;
      inr (bind_name target (merge o (fst r)) (emit (snd r) k))
  | Def name annotations b =>
      _ <- for_each (lookup_name (namespace k)) annotations ;;
      inr (mkKernel (<[name := mkObject [] [] None (Some b)]> (namespace k))
                    (trace k ++ [Defined name]))
  | For var iter times stmts =>
      r <- eval recursion_limit (namespace k) None iter ;;
      let block :=
        fix block (l : list Stmt) (k : Kernel) : PyError + Kernel :=
          match l with
          | [] => inr k
          | s' :: l' => k' <- exec s' k ;; block l' k'
          end in
      (fix loop (n : nat) (k : Kernel) : PyError + Kernel :=
         match n with
         | O => inr k
         | S n' =>
             k' <- block stmts
                     (bind_name var (mkObject (sources (fst r)) [] None None) k) ;;
             loop n' k'
         end) times (emit (snd r) k)
  | Pass => inr k
  end.

Fixpoint exec_block (l : list Stmt) (k : Kernel) : PyError + Kernel :=
  match l with
  | [] => inr k
  | s :: l' => k' <- exec s k ;; exec_block l' k'
  end.

(** Running the cells in file order, as far as their names go: each cell
    starts from the globals the cells before it left, a name that is read
    before it is bound stops the run with NameError, and the result holds the
    effects of every cell. What a loader or a chart constructor does with its
    arguments (a file that is missing, a column that is missing, a frame of
    one row) is not run here. *)
Fixpoint run_from (ns : Namespace) (cells : list Cell)
    : PyError + list (Cell * list Effect) :=
  match cells with
  | [] => inr []
  | Markdown text :: rest =>
      results <- run_from ns rest ;;
      inr ((Markdown text, []) :: results)
  | Code source :: rest =>
      k <- exec_block source (mkKernel ns []) ;;
      results <- run_from (namespace k) rest ;;
      inr ((Code source, trace k) :: results)
  end.

Definition run (cells : list Cell) : PyError + list (Cell * list Effect) :=
  run_from ∅ cells.

(** Shorthands for writing the cells down. *)
Definition value_of (names : list string) : Expr :=
  mkExpr names [] [] [] false None.

Definition constant : Expr := value_of [].

Definition string_literal (s : string) : Expr :=
  mkExpr [] [] [] [] false (Some s).

Definition loading (names : list string) (loader : string) (loc : Location) : Expr :=
  mkExpr names [] [(loader, loc)] [] false None.

Definition drawing (names : list string) (constructors : list string) : Expr :=
  mkExpr names [] [] constructors false None.

Definition calling (f : string) (names : list string) : Expr :=
  mkExpr names [(f, None)] [] [] false None.

Definition shown (e : Expr) : Expr :=
  mkExpr (reads e) (calls e) (loads e) (draws e) true (literal e).

(** [graphs.f(args).show()] *)
Definition show_graph (f : string) (args : list string) : Stmt :=
  Expression (shown (drawing ("graphs" :: args) [("graphs." ++ f)%string])).

(** finance_plotter.ipynb, the revision that imports data_visualization. *)
Definition finance_plotter : list Cell :=
  [ Code [ Shell "!pip install yahoofinancials";
           Shell "%pip install yahoofinancials" ];
    Code [ Import "data_visualization"
             ["get_depot_history"; "get_net_worth_history"];
           Import "data_visualization" ["graphs"] ];
    Markdown "# Load data";
    Code [ Assign ["export_dir"] (string_literal "~/Desktop") ];
    Code [ Assign ["net_worth_history"; "net_worth_mvg_avg"; "avg_return"]
             (loading ["get_net_worth_history"; "export_dir"]
                "get_net_worth_history" (InVariable "export_dir"));
           Expression (value_of ["net_worth_history"]) ];
    Code [ Assign ["proposition_history"; "quote_history"; "value_history"]
             (loading ["get_depot_history"; "export_dir"]
                "get_depot_history" (InVariable "export_dir")) ];
    Markdown "# Gauges";
    Code [ show_graph "get_net_worth_gauge" ["net_worth_history"] ];
    Code [ Import "plotly.graph_objects" ["go"];
           Assign ["current_value"] constant;
           Assign ["reference_value"] constant;
           Assign ["delta_value"] (value_of ["current_value"; "reference_value"]);
           Assign ["fig"]
             (drawing ["go"; "current_value"; "dict"; "reference_value"]
                ["go.Indicator"]);
           Update "fig" constant;
           Expression (shown (value_of ["fig"])) ];
    Code [ Assign ["fig"]
             (drawing ["go"; "dict"; "list"; "net_worth_history"] ["go.Table"]);
           Expression (shown (value_of ["fig"])) ];
    Markdown "# Fortune history line plot";
    Code [ show_graph "get_fortune_history_line_plot"
             ["net_worth_history"; "avg_return"] ];
    Markdown "# Fortune proposition history";
    Code [ show_graph "get_fortune_history_area_plot" ["net_worth_history"] ];
    Markdown "# Current fortune proposition (pie)";
    Code [ show_graph "get_current_fortune_proposition_pie" ["net_worth_history"] ];
    Markdown "# Depot value fluctuation histogram";
    Code [ show_graph "get_depot_value_fluctuation_histogram" ["net_worth_history"] ];
    Markdown "# Net worth bubble chart";
    Code [ show_graph "get_net_worth_bubble_chart" ["net_worth_history"] ];
    Markdown "# Depot proposition";
    Code [ show_graph "get_depot_proposition_by_shares_pie" ["proposition_history"] ];
    Code [ show_graph "get_depot_proposition_by_value_pie" ["value_history"] ];
    Code [ show_graph "get_quotes_history_line_plot" ["quote_history"] ];
    Code [ show_graph "get_depot_proposition_history_line_plot"
             ["proposition_history"] ];
    Code [ show_graph "get_depot_value_history_line_plot" ["value_history"] ];
    Code [ show_graph "get_depot_value_history_area_plot" ["value_history"] ];
    Code [] ].

(** finance_plotter.ipynb, the revision that defines its functions inline. *)
Definition finance_plotter_inline : list Cell :=
  [ Code [ Import "typing" ["Tuple"; "List"];
           Import "pandas" ["pd"];
           Import "plotly.express" ["px"];
           Import "plotly.graph_objs" ["go"] ];
    Code [ Assign ["FIXED_SCENARIO_RETURN"] constant ];
    Markdown "# Load data";
    Code [ Def "get_avg_return_scenario" ["pd"; "float"; "str"; "List"]
             (value_of ["range"; "len"]) ];
    Code [ Def "load_data" ["str"; "Tuple"; "pd"; "float"]
             (mkExpr ["pd"; "FIXED_SCENARIO_RETURN"]
                [("get_avg_return_scenario", None);
                 ("get_avg_return_scenario", None)]
                [("pd.read_csv", Argument)] [] false None) ];
    Code [ Assign ["data"; "avg_return"]
             (mkExpr [] [("load_data", Some "~/Desktop/Depotwerte.csv")]
                [] [] false None);
           Expression (value_of ["data"]) ];
    Markdown "# Fortune history line plot";
    Code [ Assign ["fig"] (drawing ["go"] []);
           Assign ["delta_depot_value"] (value_of ["data"]);
           Update "fig" (drawing ["go"; "data"] ["go.Scatter"]);
           Update "fig" (drawing ["go"; "data"; "delta_depot_value"] ["go.Scatter"]);
           Update "fig"
             (drawing ["go"; "data"; "round"; "avg_return"] ["go.Scatter"]);
           Update "fig"
             (drawing ["go"; "data"; "round"; "FIXED_SCENARIO_RETURN"]
                ["go.Scatter"]);
           Update "fig" (drawing ["go"; "data"] ["go.Scatter"]);
           Update "fig" (drawing ["go"; "data"] ["go.Scatter"]);
           Pass ];
    Code [ Expression (shown (value_of ["fig"])) ];
    Markdown "# Fortune proposition history";
    Code [ Assign ["fig"] (drawing ["px"; "data"] ["px.area"]);
           Update "fig" (drawing ["go"; "data"] ["go.Scatter"]);
           Expression (shown (value_of ["fig"])) ];
    Markdown "# Current fortune proposition (pie)";
    Code [ Assign ["labels"] constant;
           Assign ["values"] (value_of ["data"]);
           Assign ["fig"] (drawing ["go"; "labels"; "values"] ["go.Pie"]);
           Expression (shown (value_of ["fig"])) ];
    Markdown "# Depot value fluctuation histogram";
    Code [ Assign ["delta_depot_value"] (value_of ["delta_depot_value"]);
           Assign ["stddev"] (value_of ["delta_depot_value"]);
           Assign ["median"] (value_of ["delta_depot_value"]);
           Assign ["max_count"] (value_of ["delta_depot_value"]) ];
    Code [ Def "calculate_share_of_values_being_within_stddev" ["float"]
             (value_of ["len"; "delta_depot_value"; "median"; "stddev"]) ];
    Code [ Assign ["depot_value_fluctuations"]
             (value_of ["sorted"; "delta_depot_value"]);
           Assign ["fig"] (drawing ["px"; "depot_value_fluctuations"] ["px.histogram"]);
           Assign ["colors"] constant;
           Update "fig" (value_of ["median"; "colors"]);
           For "k" (value_of ["range"]) 2
             [ Update "fig" (value_of ["median"; "k"; "stddev"; "colors"]);
               Update "fig"
                 (calling "calculate_share_of_values_being_within_stddev"
                    ["median"; "k"; "stddev"; "round"]);
               Update "fig" (value_of ["median"; "k"; "stddev"; "colors"]);
               Update "fig"
                 (calling "calculate_share_of_values_being_within_stddev"
                    ["median"; "k"; "stddev"; "round"]) ];
           Expression (shown (value_of ["fig"])) ];
    Markdown "# Net worth bubble chart";
    Code [ Assign ["sizes"] (value_of ["data"]);
           Assign ["sizes_normalized"] (value_of ["sizes"]);
           Assign ["bubble_chart"]
             (drawing ["go"; "data"; "dict"; "sizes_normalized"]
                ["go.Scatter(mode='markers')"]);
           Assign ["fig"] (drawing ["go"; "bubble_chart"] []);
           Update "fig" constant;
           Expression (shown (value_of ["fig"])) ];
    Code [] ].

(** A shell line that installs a package. *)
Definition is_install (command : string) : bool :=
  String.prefix "!pip install " command || String.prefix "%pip install " command.

Definition is_empty {A} (l : list A) : bool :=
  match l with [] => true | _ => false end.

(** An effect that loads data, binds a value made from loaded data or
    holding a chart, or displays a chart. *)
Definition loads_transforms_or_charts (ev : Effect) : bool :=
  match ev with
  | Loaded _ _ | Shown _ _ => true
  | Bound _ from holding => negb (is_empty from && is_empty holding)
  | Ran _ | Imported _ _ | Defined _ => false
  end.

(** The claim on one notebook: the cells run in file order, no name being
    read before it is bound, and every code cell loads or transforms data or
    constructs or displays a chart. *)
Definition data_and_chart_script (cells : list Cell) : Prop :=
  exists results,
    run cells = inr results /\
    forall source effects,
      In (Code source, effects) results ->
      existsb loads_transforms_or_charts effects = true.

Fixpoint loops (s : Stmt) : nat :=
  match s with
  | For _ _ _ stmts => S (list_sum (List.map loops stmts))
  | _ => 0
  end.

(** The [for] statements of a notebook, cell by cell. *)
Definition loops_per_cell (cells : list Cell) : list nat :=
  List.map
    (fun c => match c with
              | Markdown _ => 0
              | Code source => list_sum (List.map loops source)
              end)
    cells.

Definition all_effects (results : list (Cell * list Effect)) : list Effect :=
  concat (List.map snd results).

(** A chart of the given kind, made from data of the given source, is
    displayed. *)
Definition charted (kind : ChartKind) (source : Source) (effects : list Effect)
    : bool :=
  existsb
    (fun ev =>
       match ev with
       | Shown holding from =>
           bool_decide (kind ∈ holding) && bool_decide (source ∈ from)
       | _ => false
       end)
    effects.

(** The source is loaded from the given place. *)
Definition loaded_from (source : Source) (place : string) (effects : list Effect)
    : bool :=
  existsb
    (fun ev =>
       match ev with
       | Loaded s (Some p) => bool_decide (s = source) && String.eqb p place
       | _ => false
       end)
    effects.

(** What a cell is there for, read off what running it left behind. *)
Inductive CellKind : Type :=
| Prose         (* a markdown cell *)
| Blank         (* a code cell without a statement that leaves anything *)
| RunsCommand   (* a shell line that is no installation *)
| Installs      (* pip install *)
| LoadsData     (* a history or a file is read *)
| DrawsChart      (* a chart is constructed or displayed *)
| TransformsData  (* values are computed from loaded data *)
| SetsUp.       (* imports, constants and function definitions only *)

#[global] Instance CellKind_eq_dec : EqDecision CellKind.
Proof. solve_decision. Defined.

Definition runs_other_command (ev : Effect) : bool :=
  match ev with Ran command => negb (is_install command) | _ => false end.

Definition installs (ev : Effect) : bool :=
  match ev with Ran command => is_install command | _ => false end.

Definition loads_data (ev : Effect) : bool :=
  match ev with Loaded _ _ => true | _ => false end.

Definition charts_something (ev : Effect) : bool :=
  match ev with
  | Shown _ _ => true
  | Bound _ _ holding => negb (is_empty holding)
  | _ => false
  end.

Definition transforms (ev : Effect) : bool :=
  match ev with Bound _ from _ => negb (is_empty from) | _ => false end.

(** The kind of a cell of a run: the first of the kinds above, in that
    order, that one of its effects has. *)
Definition cell_kind (result : Cell * list Effect) : CellKind :=
  match fst result with
  | Markdown _ => Prose
  | Code _ =>
      let effects := snd result in
      if is_empty effects then Blank
      else if existsb runs_other_command effects then RunsCommand
      else if existsb installs effects then Installs
      else if existsb loads_data effects then LoadsData
      else if existsb charts_something effects then DrawsChart
      else if existsb transforms effects then TransformsData
      else SetsUp
  end.

(** A notebook without its cell number [i] (from 0). *)
Definition without_cell (i : nat) (cells : list Cell) : list Cell :=
  firstn i cells ++ skipn (S i) cells.

End Notebook.

(** ** The views behind the simulation page *)

Module Backend.
Import JS.

(** Modelled from the spec: the Django views behind the URLs 'simulate' and
    'get-simulation-results', which the page calls, are not among the
    sources. By the specification the view layer shells out to a CLI and is a
    request/response wrapper over the CLI subprocess: the simulate view spawns
    a subprocess with the simulation type and the arguments and answers with
    an identifier; the subprocess exits at some later time, leaving its
    output; the results view answers with the output kept for the identifier,
    or that there is none yet. *)
Record Process : Type := mkProcess {
  simulation_type : string;
  args : list CLIArgument;
  output : option JSValue       (* [None] while the subprocess runs *)
}.

Record State : Type := mkState {
  processes : gmap nat Process;
  next_identifier : nat
}.

Definition initial : State := mkState ∅ 0.

Inductive Event : Type :=
| SimulateRequest (simulation_type : string) (args : list CLIArgument)
| ProcessExit (identifier : nat)
| ResultsRequest (identifier : nat).

Inductive Answer : Type :=
| Accepted (identifier : nat)
| Results (data : JSValue)
| NotAvailable
| Nothing.

Section WithCLI.

(** What the CLI prints for a simulation type and arguments. *)
Variable cli : string -> list CLIArgument -> JSValue.

(** Modelled from the spec: one request or one exit of a subprocess. *)
Definition step (ev : Event) (s : State) : State * Answer :=
  match ev with
  | SimulateRequest st a =>
      let identifier := next_identifier s in
      (mkState (<[identifier := mkProcess st a None]> (processes s))
               (S identifier),
       Accepted identifier)
  | ProcessExit identifier =>
      match processes s !! identifier with
      | Some (mkProcess st a None) =>
          (mkState (<[identifier := mkProcess st a (Some (cli st a))]> (processes s))
                   (next_identifier s),
           Nothing)
      | _ => (s, Nothing)
      end
  | ResultsRequest identifier =>
      match processes s !! identifier with
      | Some (mkProcess _ _ (Some data)) => (s, Results data)
      | _ => (s, NotAvailable)
      end
  end.

Fixpoint run (events : list Event) (s : State) : State :=
  match events with
  | [] => s
  | ev :: rest => run rest (fst (step ev s))
  end.

(** Every identifier in use is below the next one, and an output that is
    kept is what the CLI prints for the command of its process. *)
Definition consistent (s : State) : Prop :=
  forall identifier p,
    processes s !! identifier = Some p ->
    identifier < next_identifier s /\
    forall data, output p = Some data -> data = cli (simulation_type p) (args p).

End WithCLI.

End Backend.

(** ** The macros of the spreadsheet *)

Module Macros.

(** Modelled from the spec: the macro code is not among the sources. By the
    specification the macro layer is a sequence of cell-read/cell-write
    operations bound to spreadsheet button events: a macro reads cells,
    computes derived values and writes cells back. A cell is addressed by
    sheet, column and row and holds a number. *)
Inductive Expr : Type :=
| Const (n : Z)
| Var (x : string)
| Plus (a b : Expr)
| Minus (a b : Expr)
| Times (a b : Expr).

Inductive Operation : Type :=
| ReadCell (x : string) (cell : string * (nat * nat))
| Derive (x : string) (e : Expr)
| WriteCell (cell : string * (nat * nat)) (x : string).

(** The document: the cells that hold a value, and the macro each button
    runs. *)
Record Document : Type := mkDocument {
  cells : gmap (string * (nat * nat)) Z;
  buttons : gmap string (list Operation)
}.

Inductive Effect : Type :=
| CellRead (cell : string * (nat * nat)) (value : Z)
| CellWritten (cell : string * (nat * nat)) (value : Z).

(** An empty cell reads as 0, and so does a variable never assigned. *)
Fixpoint eval (env : gmap string Z) (e : Expr) : Z :=
  match e with
  | Const n => n
  | Var x => default 0%Z (env !! x)
  | Plus a b => (eval env a + eval env b)%Z
  | Minus a b => (eval env a - eval env b)%Z
  | Times a b => (eval env a * eval env b)%Z
  end.

Record Run : Type := mkRun {
  env : gmap string Z;
  sheet : gmap (string * (nat * nat)) Z;
  trace : list Effect
}.

(** Modelled from the spec: one operation of a macro. *)
Definition exec (op : Operation) (r : Run) : Run :=
  match op with
  | ReadCell x cell =>
      let v := default 0%Z (sheet r !! cell) in
      mkRun (<[x := v]> (env r)) (sheet r) (trace r ++ [CellRead cell v])
  | Derive x e =>
      mkRun (<[x := eval (env r) e]> (env r)) (sheet r) (trace r)
  | WriteCell cell x =>
      let v := default 0%Z (env r !! x) in
      mkRun (env r) (<[cell := v]> (sheet r)) (trace r ++ [CellWritten cell v])
  end.

Definition run_macro (macro : list Operation) (r : Run) : Run :=
  fold_left (fun r op => exec op r) macro r.

(** Modelled from the spec: a click on a button runs the macro bound to it;
    a button without a macro does nothing. *)
Definition click (button : string) (doc : Document) : Document * list Effect :=
  match buttons doc !! button with
  | Some macro =>
      let r := run_macro macro (mkRun ∅ (cells doc) []) in
      (mkDocument (sheet r) (buttons doc), trace r)
  | None => (doc, [])
  end.

(** The cells a macro reads and the cells it writes. *)
Definition cells_read (macro : list Operation) : list (string * (nat * nat)) :=
  flat_map (fun op => match op with ReadCell _ cell => [cell] | _ => [] end) macro.

Definition cells_written (macro : list Operation) : list (string * (nat * nat)) :=
  flat_map (fun op => match op with WriteCell cell _ => [cell] | _ => [] end) macro.

(** A sheet with one button that writes the sum of two cells to a third. *)
Definition sum_macro : list Operation :=
  [ ReadCell "a" ("Depot", (1, 2)); ReadCell "b" ("Depot", (1, 3));
    Derive "total" (Plus (Var "a") (Var "b"));
    WriteCell ("Depot", (1, 4)) "total" ].

Definition sample_document : Document :=
  mkDocument
    (<[("Depot", (1, 2)) := 40%Z]> (<[("Depot", (1, 3)) := 2%Z]> ∅))
    {[ "Sum" := sum_macro ]}.

End Macros.

(** ** The configuration form: templates/app/configuration-form.html *)

Module Form.
Import JS.

(** [String(v)], as [getElementsByName(arg.key)] and [arg.key + "_toggle"]
    turn a key into text. In a joined array [null] and [undefined] are
    empty. A number is written in decimal digits, which is what JS does for
    the integers a double holds exactly and that are below 10^21 in size;
    the keys of the forms are texts. *)
Fixpoint to_string (v : JSValue) : string :=
  match v with
  | JSUndefined => "undefined"
  | JSNull => "null"
  | JSBool true => "true"
  | JSBool false => "false"
  | JSNumber n => pretty n
  | JSString s => s
  | JSArray items =>
      (fix join (l : list JSValue) : string :=
         match l with
         | [] => ""
         | x :: rest =>
             let head :=
               match x with
               | JSUndefined | JSNull => ""
               | _ => to_string x
               end in
             match rest with
             | [] => head
             | _ => head ++ "," ++ join rest
             end
         end) items
  | JSObject _ => "[object Object]"
  end%string.

(** function getArgumentsWithValues(arguments) {
      let args = [];
      for (let arg of arguments) {
        args.push({key: arg.key, type: arg.type,
                   display_name: arg.display_name, value: arg.value})
      }
      return args
    } *)
Definition getArgumentsWithValues (arguments : list CLIArgument) : list JSValue :=
  List.map
    (fun arg =>
       JSObject [("key", key arg); ("type", type arg);
                 ("display_name", display_name arg); ("value", value arg)])
    arguments.

(** What the script reads of a form element: [input.type], [input.checked],
    [input.value]. *)
Record Input : Type := mkInput {
  input_type : string;
  checked : bool;
  input_value : string
}.

(** [document.getElementsByName(name)[0]], the document being its named
    elements in document order: the first element of that name, or
    [undefined]. *)
Fixpoint getElementsByName_first (document : list (string * Input)) (name : string)
    : option Input :=
  match document with
  | [] => None
  | (n, input) :: rest =>
      if String.eqb n name then Some input else getElementsByName_first rest name
  end.

(** The body of the loop of [submit]:
      let input = document.getElementsByName(arg.key)[0];
      if (!input) { continue }
      let toggle = document.getElementsByName(arg.key + "_toggle")[0]
      if (toggle && !toggle.checked) { arg.setValue(null); }
      else if (input.type === "checkbox") { arg.setValue(input.checked) }
      else { arg.setValue(input.value) } *)
Definition read_input (document : list (string * Input)) (arg : CLIArgument)
    : CLIArgument :=
  match getElementsByName_first document (to_string (key arg)) with
  | None => arg
  | Some input =>
      let toggle :=
        getElementsByName_first document (to_string (key arg) ++ "_toggle") in
      let switched_off :=
        match toggle with
        | Some t => negb (checked t)
        | None => false
        end in
      if switched_off then setValue arg JSNull
      else if String.eqb (input_type input) "checkbox"
           then setValue arg (JSBool (checked input))
           else setValue arg (JSString (input_value input))
  end.

(** The page while [submit] runs: the browser of the simulation page, the
    argument lists sent to the URL 'additional-args' and the messages of the
    prompts shown, oldest first. *)
Record Session : Type := mkSession {
  browser : Frontend.Browser;
  additional_requests : list (list CLIArgument);
  prompts : list JSValue
}.

Definition initial_session : Session :=
  mkSession Frontend.initial_browser [] [].

(** The view behind 'additional-args' answers a request knowing the requests
    made before it; [None] is a fetch that fails. *)
Definition ArgsServer : Type :=
  list (list CLIArgument) -> list CLIArgument -> option Frontend.Response.

(** The user answers a prompt, knowing the prompts shown before it, with a
    text, or cancels it ([None], for which [prompt] returns [null]). *)
Definition User : Type := list JSValue -> JSValue -> option string.

(** What an async function of the form is rejected with: an exception of the
    runtime, or the [Error(msg)] that [promptForAdditionalArgs] throws. *)
Inductive Rejection : Type :=
| Thrown (e : JSError)
| Error (msg : string).

(** An async function after a number of rounds: it has returned, it was
    rejected, or it still waits for an inner call. *)
Inductive Outcome (A : Type) : Type :=
| Returned (a : A)
| Rejected (r : Rejection)
| Pending.
Arguments Returned {A} a.
Arguments Rejected {A} r.
Arguments Pending {A}.

(** A byte that continues a character of a text in UTF-8: 10xxxxxx. *)
Definition is_continuation (c : Ascii.ascii) : bool :=
  (128 <=? Ascii.nat_of_ascii c) && (Ascii.nat_of_ascii c <? 192).

(** The characters (code points) of a text in UTF-8: a byte opens a
    character unless it continues the one before it. *)
Fixpoint characters (s : string) : list string :=
  match s with
  | EmptyString => []
  | String c rest =>
      let continued :=
        match rest with
        | String c' _ => is_continuation c'
        | EmptyString => false
        end in
      match characters rest with
      | next :: others =>
          if continued then String c next :: others
          else String c EmptyString :: next :: others
      | [] => [String c EmptyString]
      end
  end.

(** [for (let x of v)]: an array gives its items, a string its characters,
    anything else is not iterable. *)
Definition iterate (v : JSValue) : JSError + list JSValue :=
  match v with
  | JSArray items => inr items
  | JSString s => inr (List.map JSString (characters s))
  | _ => inl TypeError
  end.

(** prompt(message) *)
Definition prompt (user : User) (message : JSValue) (s : Session)
    : JSValue * Session :=
  (match user (prompts s) message with
   | Some answer => JSString answer
   | None => JSNull
   end,
   mkSession (browser s) (additional_requests s) (prompts s ++ [message])).

(** alert(msg), on the page of the simulation *)
Definition alert (msg : string) (s : Session) : Session :=
  mkSession
    (Frontend.mkBrowser (Frontend.page (browser s))
       (Frontend.alerts (browser s) ++ [msg]) (Frontend.requests (browser s)))
    (additional_requests s) (prompts s).

(** The loop of [promptForAdditionalArgs]:
      for (let arg of additional_args) {
        arg = CLIArgument.fromJSON(arg);
        arg.setValue(prompt(arg.display_name));
        args_to_send.push(arg)
      } *)
Fixpoint prompt_each (user : User) (additional_args : list JSValue) (s : Session)
    : (JSError + list CLIArgument) * Session :=
  match additional_args with
  | [] => (inr [], s)
  | item :: rest =>
      match fromJSON item with
      | inl e => (inl e, s)
      | inr arg =>
          let answered := prompt user (display_name arg) s in
          let arg := setValue arg (fst answered) in
          match prompt_each user rest (snd answered) with
          | (inl e, s') => (inl e, s')
          | (inr args_to_send, s') => (inr (arg :: args_to_send), s')
          end
      end
  end.

(** async function promptForAdditionalArgs(arguments), [rounds] bounding the
    number of requests: the function calls itself on the arguments it has
    just prompted for, and goes on for as long as the server names further
    arguments. *)
Fixpoint promptForAdditionalArgs (rounds : nat) (server : ArgsServer) (user : User)
    (arguments : list CLIArgument) (s : Session)
    : Outcome (list CLIArgument) * Session :=
  match arguments with
  | [] => (Returned [], s)
  | _ :: _ =>
      match rounds with
      | O => (Pending, s)
      | S rounds' =>
          let sent :=
            mkSession (browser s) (additional_requests s ++ [arguments])
                      (prompts s) in
          match server (additional_requests s) arguments with
          | None => (Rejected (Thrown TypeError), sent)
          | Some response =>
              if negb (Frontend.ok response) then
                let msg := ("Error: " ++ Frontend.text response)%string in
                (Rejected (Error msg), alert msg sent)
              else
                match Frontend.json response with
                | None => (Rejected (Thrown SyntaxError), sent)
                | Some json =>
                    match property json "additional_args" with
                    | inl e => (Rejected (Thrown e), sent)
                    | inr additional_args =>
                        match iterate additional_args with
                        | inl e => (Rejected (Thrown e), sent)
                        | inr items =>
                            match prompt_each user items sent with
                            | (inl e, s') => (Rejected (Thrown e), s')
                            | (inr args_to_send, s') =>
                                match promptForAdditionalArgs rounds' server user
                                        args_to_send s' with
                                | (Returned more, s'') =>
                                    (Returned (arguments ++ more), s'')
                                | other => other
                                end
                            end
                        end
                    end
                end
          end
      end
  end.

(** [args.map(arg => CLIArgument.fromJSON(arg))] on the parsed args_json:
    only an array has [map]. *)
Fixpoint fromJSON_each (items : list JSValue) : JSError + list CLIArgument :=
  match items with
  | [] => inr []
  | item :: rest =>
      match fromJSON item, fromJSON_each rest with
      | inr arg, inr args => inr (arg :: args)
      | inl e, _ => inl e
      | _, inl e => inl e
      end
  end.

(** async function submit(), with the parsed args_json of the template, the
    named elements of the document and the submit handler of the page as
    parameters. *)
Definition submit (rounds : nat) (server : ArgsServer) (user : User)
    (handler : list CLIArgument -> Frontend.Handler unit)
    (document : list (string * Input)) (args : JSValue) (s : Session)
    : Outcome unit * Session :=
  match args with
  | JSArray items =>
      match fromJSON_each items with
      | inl e => (Rejected (Thrown e), s)
      | inr arguments =>
          let arguments := List.map (read_input document) arguments in
          match promptForAdditionalArgs rounds server user arguments s with
          | (Returned arguments, s') =>
              let handled := handler arguments (browser s') in
              (match fst handled with
               | inr _ => Returned tt
               | inl e => Rejected (Thrown e)
               end,
               mkSession (snd handled) (additional_requests s') (prompts s'))
          | (Rejected r, s') => (Rejected r, s')
          | (Pending, s') => (Pending, s')
          end
      end
  | _ => (Rejected (Thrown TypeError), s)
  end.

(** What an element of the form holds: the state of a checkbox, the text of
    anything else. *)
Definition entered (input : Input) : JSValue :=
  if String.eqb (input_type input) "checkbox" then JSBool (checked input)
  else JSString (input_value input).

(** What [prompt] returns for the reply of the user. *)
Definition reply_value (reply : option string) : JSValue :=
  match reply with
  | Some answer => JSString answer
  | None => JSNull
  end.

(** The arguments hold, in order, what the user replies to the prompts for
    their display names, [shown] being the prompts shown before. *)
Fixpoint hold_replies (user : User) (shown : list JSValue)
    (args : list CLIArgument) : Prop :=
  match args with
  | [] => True
  | a :: rest =>
      value a = reply_value (user shown (display_name a)) /\
      hold_replies user (shown ++ [display_name a]) rest
  end.

(** The values a prompt can give an argument. *)
Definition is_prompt_value (v : JSValue) : bool :=
  match v with
  | JSNull | JSString _ => true
  | _ => false
  end.

(** A server that names no further argument. *)
Definition content_server : ArgsServer := fun _ _ =>
  Some (Frontend.mkResponse true ""
          (Some (JSObject [("additional_args", JSArray [])]))).

(** A server that refuses everything. *)
Definition refusing_args_server : ArgsServer := fun _ _ =>
  Some (Frontend.mkResponse false "Unknown argument" None).

Definition depot_argument : CLIArgument :=
  mkCLIArgument (JSString "depot") (JSString "Depot") (JSString "str")
                JSUndefined JSUndefined.

(** A user who answers every prompt with "10". *)
Definition ten_user : User := fun _ _ => Some "10"%string.

(** A user who answers the first prompt with "10" and cancels the others. *)
Definition tiring_user : User := fun shown _ =>
  match shown with
  | [] => Some "10"%string
  | _ => None
  end.

(** A server that asks for the years and the rate of every first request and
    for nothing after that. *)
Definition curious_server : ArgsServer := fun log _ =>
  match log with
  | [] =>
      Some (Frontend.mkResponse true ""
              (Some (JSObject
                       [("additional_args",
                         JSArray [JSObject [("key", JSString "years");
                                            ("display_name", JSString "Years");
                                            ("type", JSString "int")];
                                  JSObject [("key", JSString "rate");
                                            ("display_name", JSString "Rate");
                                            ("type", JSString "float")]])])))
  | _ => content_server log []
  end.

(** A form with a text field for the depot and, switched off, one for the
    years. *)
Definition depot_form : list (string * Input) :=
  [ ("depot", mkInput "text" false "DE000");
    ("years", mkInput "number" false "10");
    ("years_toggle", mkInput "checkbox" false "on") ].

(** The args_json of a simulation with a depot and a number of years. *)
Definition depot_args : list JSValue :=
  [ JSObject [("key", JSString "depot"); ("display_name", JSString "Depot");
              ("type", JSString "str")];
    JSObject [("key", JSString "years"); ("display_name", JSString "Years");
              ("type", JSString "int"); ("default_value", JSNumber 5)] ].

End Form.

(** ** The plotting notebook: the computations of the chart cells *)

Module Charts.
Import Plotter.

(** [series.diff()]: nan for the first row, then each value minus the one
    before it. *)
Fixpoint differences (previous : pyfloat) (series : list pyfloat) : list pyfloat :=
  match series with
  | [] => []
  | x :: rest => float_sub x previous :: differences x rest
  end.

Definition diff (series : list pyfloat) : list pyfloat :=
  match series with
  | [] => []
  | x :: rest => None :: differences x rest
  end.

(** delta_depot_value = data["Depotwert"].diff(), and in the histogram cell
    delta_depot_value = delta_depot_value[1:] *)
Definition delta_depot_value (depot : list pyfloat) : list pyfloat :=
  tail (diff depot).

(** [x <= y] on floats; a comparison with nan is false. The values compared
    here are read from the file or computed from them without a division, so
    that [None] is nan. *)
Definition float_le (x y : pyfloat) : bool :=
  match x, y with
  | Some a, Some b => if Rle_dec a b then true else false
  | _, _ => false
  end.

(** median - k * stddev <= i <= median + k * stddev *)
Definition within_stddev (median stddev : pyfloat) (k : R) (i : pyfloat) : bool :=
  float_le (float_sub median (float_mul (Some k) stddev)) i &&
  float_le i (float_add median (float_mul (Some k) stddev)).

(** def calculate_share_of_values_being_within_stddev(k) -> float:
        return len(
            [i for i in delta_depot_value
             if median - k * stddev <= i <= median + k * stddev]) / len(
            delta_depot_value)
    with the globals delta_depot_value, median and stddev as parameters. *)
Definition calculate_share_of_values_being_within_stddev
    (delta : list pyfloat) (median stddev : pyfloat) (k : R) : PyError + R :=
  let inside := List.filter (within_stddev median stddev k) delta in
  match delta with
  | [] => inl ZeroDivisionError
  | _ :: _ => inr (INR (length inside) / INR (length delta))%R
  end.

(** [series.min()] and [series.max()]: nan values are skipped, and the
    result is nan when no value is left. *)
Fixpoint series_min (series : list pyfloat) : pyfloat :=
  match series with
  | [] => None
  | None :: rest => series_min rest
  | Some x :: rest =>
      match series_min rest with
      | Some m => Some (Rmin x m)
      | None => Some x
      end
  end.

Fixpoint series_max (series : list pyfloat) : pyfloat :=
  match series with
  | [] => None
  | None :: rest => series_max rest
  | Some x :: rest =>
      match series_max rest with
      | Some m => Some (Rmax x m)
      | None => Some x
      end
  end.

(** The spans [max - min] below which the subtraction is safe: it neither
    wraps around in a column of 64-bit integers nor overflows to an infinity
    in a column of floats. *)
Definition span_limit : R := (2 ^ 63)%R.

(** sizes_normalized = (sizes - sizes.min()) / (sizes.max() - sizes.min()),
    for a span that the subtraction holds. *)
Definition sizes_normalized (sizes : list pyfloat) : list pyfloat :=
  List.map
    (fun x =>
       float_div (float_sub x (series_min sizes))
                 (float_sub (series_max sizes) (series_min sizes)))
    sizes.

(** The fluctuations 1 and 5, around a median of 3. *)
Definition sample_delta : list pyfloat := [Some 1%R; Some 5%R].

End Charts.

(** ** Servers to run the page against *)

Module Servers.
Import JS Frontend.

(** A server that accepts every simulation as "sim-7" and has its results at
    once. *)
Definition ready_server : Server := fun _ rq =>
  match rq with
  | Simulate _ _ =>
      Some (mkResponse true "" (Some (JSObject [("identifier", JSString "sim-7")])))
  | GetSimulationResults _ =>
      Some (mkResponse true ""
              (Some (JSObject [("data", JSObject [("line", JSString "line");
                                                  ("table", JSString "table")])])))
  end.

(** A server that answers ok with a body that is not JSON. *)
Definition garbled_server : Server := fun _ _ =>
  Some (mkResponse true "<html>" None).

End Servers.

(** * Theorems *)

(** ** CLIArgument.js *)

Section SetValue.
Import JS.

(** The call on [undefined] writes [null] and then overwrites it. *)
Lemma setValue_undefined_unfold (a : CLIArgument) :
  setValue a JSUndefined = assign_value (assign_value a JSNull) JSUndefined.
Proof. simp setValue. reflexivity. Qed.

Lemma setValue_assigns_last (a : CLIArgument) (v : JSValue) :
  setValue a v = assign_value a v.
Proof. funelim (setValue a v); simp setValue; reflexivity. Qed.

Example setValue_undefined :
  setValue (mkCLIArgument (JSString "years") (JSString "Years") (JSString "int")
              (JSString "10") JSNull) JSUndefined =
    mkCLIArgument (JSString "years") (JSString "Years") (JSString "int")
      JSUndefined JSNull.
Proof. reflexivity. Qed.

Example fromJSON_value_undefined :
  fromJSON (JSObject [("key", JSString "years"); ("type", JSString "int")]) =
    inr (mkCLIArgument (JSString "years") JSUndefined (JSString "int")
           JSUndefined JSUndefined).
Proof. reflexivity. Qed.

(** C2: for every CLIArgument [a] and every value [v], [undefined]
    included, [a.value] is [v] after [a.setValue(v)]; the other fields keep
    their values; and [a.setValue(undefined)] leaves [a.value] undefined and
    not [null], the assignment after the recursive call overwriting what the
    call wrote. *)
Theorem setValue_stores_argument (a : CLIArgument) (v : JSValue) :
  value (setValue a v) = v /\
  key (setValue a v) = key a /\
  display_name (setValue a v) = display_name a /\
  type (setValue a v) = type a /\
  default_value (setValue a v) = default_value a /\
  setValue a JSUndefined = assign_value (setValue a JSNull) JSUndefined /\
  value (setValue a JSNull) = JSNull /\
  value (setValue a JSUndefined) = JSUndefined /\
  value (setValue a JSUndefined) <> JSNull.
Proof.
  rewrite !setValue_assigns_last. simpl.
  repeat split; try reflexivity. discriminate.
Qed.

End SetValue.

(** ** simulation-view.html *)

Section SimulationView.
Import JS Frontend.

Variable server : Server.

Ltac run_handler :=
  unfold getResults, simulate, getResultsForIdentifier, bind, fetch, set_status,
    set_id, alert, response_json, lift, newPlot_line, newPlot_table, ret, throw;
  simpl.

(** [simulate] up to the answer of the simulate endpoint. *)
Lemma simulate_refused simulation_type args b r :
  server (requests b) (Simulate simulation_type args) = Some r ->
  ok r = false ->
  simulate server simulation_type args b =
    (inr tt,
     mkBrowser (mkPage (JSString "pending") "Simulating"
                       (line_plot (page b)) (table_plot (page b)))
               (alerts b ++ [("Error: " ++ text r)%string])
               (requests b ++ [Simulate simulation_type args])).
Proof.
  intros Hr Hok. run_handler. rewrite Hr, Hok. reflexivity.
Qed.

Lemma simulate_accepted simulation_type args b r data identifier :
  server (requests b) (Simulate simulation_type args) = Some r ->
  ok r = true ->
  json r = Some data ->
  property data "identifier" = inr identifier ->
  simulate server simulation_type args b =
    getResults server identifier
      (mkBrowser (mkPage identifier "Simulating"
                         (line_plot (page b)) (table_plot (page b)))
                 (alerts b)
                 (requests b ++ [Simulate simulation_type args])).
Proof.
  intros Hr Hok Hjson Hid.
  run_handler. rewrite Hr, Hok. simpl. rewrite Hjson, Hid. reflexivity.
Qed.

(** [getResults] sends one request, whatever comes back. *)
Lemma getResults_requests identifier b :
  requests (snd (getResults server identifier b)) =
    requests b ++ [GetSimulationResults identifier].
Proof.
  run_handler.
  destruct (server (requests b) (GetSimulationResults identifier)) as [r|];
    [|reflexivity].
  simpl. destruct (ok r); simpl; [|reflexivity].
  destruct (json r) as [parsed|]; simpl; [|reflexivity].
  destruct (property parsed "data") as [e|data]; simpl; [reflexivity|].
  destruct (property data "line"); simpl; [reflexivity|].
  destruct (property data "table"); reflexivity.
Qed.

(** [getResults] never writes #simulation-id. *)
Lemma getResults_simulation_id identifier b :
  simulation_id (page (snd (getResults server identifier b))) =
    simulation_id (page b).
Proof.
  run_handler.
  destruct (server (requests b) (GetSimulationResults identifier)) as [r|];
    [|reflexivity].
  simpl. destruct (ok r); simpl; [|reflexivity].
  destruct (json r) as [parsed|]; simpl; [|reflexivity].
  destruct (property parsed "data") as [e|data]; simpl; [reflexivity|].
  destruct (property data "line"); simpl; [reflexivity|].
  destruct (property data "table"); reflexivity.
Qed.

Lemma getResults_refused identifier b r :
  server (requests b) (GetSimulationResults identifier) = Some r ->
  ok r = false ->
  getResults server identifier b =
    (inr tt,
     mkBrowser (mkPage (simulation_id (page b)) "Retrieving results"
                       (line_plot (page b)) (table_plot (page b)))
               (alerts b ++ [("Error: " ++ text r)%string])
               (requests b ++ [GetSimulationResults identifier])).
Proof.
  intros Hr Hok. run_handler. rewrite Hr, Hok. reflexivity.
Qed.

(** [getResults] on a response that is ok and holds both plots: they are
    drawn and the status ends on "Done". *)
Lemma getResults_served identifier b r parsed data line table :
  server (requests b) (GetSimulationResults identifier) = Some r ->
  ok r = true ->
  json r = Some parsed ->
  property parsed "data" = inr data ->
  property data "line" = inr line ->
  property data "table" = inr table ->
  getResults server identifier b =
    (inr tt,
     mkBrowser (mkPage (simulation_id (page b)) "Done" (Some line) (Some table))
               (alerts b)
               (requests b ++ [GetSimulationResults identifier])).
Proof.
  intros Hr Hok Hjson Hdata Hline Htable. run_handler.
  rewrite Hr, Hok. simpl. rewrite Hjson, Hdata. simpl.
  rewrite Hline. simpl. rewrite Htable. reflexivity.
Qed.

(** Cancelling the prompt of the Get Results button does nothing. *)
Lemma getResultsForIdentifier_cancelled b :
  getResultsForIdentifier server JSNull b = (inr tt, b).
Proof. reflexivity. Qed.

(** C1, as the code has it: once the simulate endpoint has accepted the
    request and returned an identifier, [simulate] shows the identifier and
    sends exactly one get-simulation-results request, for that identifier;
    no further request follows, whatever the answer to that one is. *)
Theorem simulate_requests_results_once simulation_type args b r data identifier :
  server (requests b) (Simulate simulation_type args) = Some r ->
  ok r = true ->
  json r = Some data ->
  property data "identifier" = inr identifier ->
  let b' := snd (simulate server simulation_type args b) in
  requests b' =
    requests b ++ [Simulate simulation_type args; GetSimulationResults identifier] /\
  results_requests b' =
    results_requests b ++ [GetSimulationResults identifier] /\
  simulation_id (page b') = identifier.
Proof.
  intros Hr Hok Hjson Hid b'. subst b'.
  rewrite (simulate_accepted _ _ _ _ _ _ Hr Hok Hjson Hid).
  split; [|split].
  - rewrite getResults_requests. simpl. rewrite <- app_assoc. reflexivity.
  - unfold results_requests. rewrite getResults_requests. simpl.
    rewrite <- app_assoc, !List.filter_app. simpl. reflexivity.
  - rewrite getResults_simulation_id. reflexivity.
Qed.

(** C6: when the simulate request is answered with a response that is not
    ok, [simulate] alerts "Error: " followed by the response text and
    returns: no further request is sent and both plots are as they were.
    When the get-simulation-results request is answered with a response that
    is not ok, [getResults] alerts likewise and returns, and the line plot,
    the table plot and the identifier shown are as they were. *)
Theorem non_ok_response_alerts_and_returns simulation_type args identifier b r :
  ok r = false ->
  (server (requests b) (Simulate simulation_type args) = Some r ->
   let out := simulate server simulation_type args b in
   fst out = inr tt /\
   alerts (snd out) = alerts b ++ [("Error: " ++ text r)%string] /\
   requests (snd out) = requests b ++ [Simulate simulation_type args] /\
   results_requests (snd out) = results_requests b /\
   line_plot (page (snd out)) = line_plot (page b) /\
   table_plot (page (snd out)) = table_plot (page b)) /\
  (server (requests b) (GetSimulationResults identifier) = Some r ->
   let out := getResults server identifier b in
   fst out = inr tt /\
   alerts (snd out) = alerts b ++ [("Error: " ++ text r)%string] /\
   requests (snd out) = requests b ++ [GetSimulationResults identifier] /\
   line_plot (page (snd out)) = line_plot (page b) /\
   table_plot (page (snd out)) = table_plot (page b) /\
   simulation_id (page (snd out)) = simulation_id (page b)).
Proof.
  intros Hok. split; intros Hr out; subst out.
  - rewrite (simulate_refused _ _ _ _ Hr Hok). simpl.
    repeat split; try reflexivity.
    unfold results_requests. simpl. rewrite List.filter_app. simpl.
    apply app_nil_r.
  - rewrite (getResults_refused _ _ _ Hr Hok). simpl.
    repeat split; reflexivity.
Qed.

End SimulationView.

(** The run of [simulate] against the slow server, and a retrieval by hand
    after it. *)
Example simulate_slow_server :
  Frontend.simulate Frontend.slow_server "depot" [] Frontend.initial_browser =
    (inr tt,
     Frontend.mkBrowser
       (Frontend.mkPage (JS.JSString "sim-1") "Retrieving results" None None)
       ["Error: Simulation not finished"%string]
       [Frontend.Simulate "depot" [];
        Frontend.GetSimulationResults (JS.JSString "sim-1")]).
Proof. reflexivity. Qed.

Example get_results_by_hand :
  let b := snd (Frontend.simulate Frontend.slow_server "depot" []
                  Frontend.initial_browser) in
  Frontend.page
    (snd (Frontend.getResultsForIdentifier Frontend.slow_server
            (JS.JSString "sim-1") b)) =
    Frontend.mkPage (JS.JSString "sim-1") "Done"
      (Some (JS.JSArray [])) (Some (JS.JSArray [])).
Proof. reflexivity. Qed.

Lemma simulate_requests_results_once_witness :
  let b' := snd (Frontend.simulate Frontend.slow_server "depot" []
                   Frontend.initial_browser) in
  Frontend.requests b' =
    [Frontend.Simulate "depot" [];
     Frontend.GetSimulationResults (JS.JSString "sim-1")] /\
  Frontend.results_requests b' =
    [Frontend.GetSimulationResults (JS.JSString "sim-1")] /\
  Frontend.simulation_id (Frontend.page b') = JS.JSString "sim-1".
Proof.
  apply (simulate_requests_results_once Frontend.slow_server "depot" []
           Frontend.initial_browser
           (Frontend.mkResponse true ""
              (Some (JS.JSObject [("identifier", JS.JSString "sim-1")])))
           (JS.JSObject [("identifier", JS.JSString "sim-1")])
           (JS.JSString "sim-1"));
    reflexivity.
Defined.

(** C1, as the claim has it, fails: the server accepts the simulation as
    "sim-1" and would have its results at the next request, and the run of
    [simulate] ends after one request for them, answered "not finished". *)
Lemma simulate_does_not_poll :
  ~ Frontend.polls_until_available Frontend.slow_server "depot" []
      Frontend.initial_browser.
Proof.
  intros Hpoll.
  destruct (Hpoll
              (Frontend.mkResponse true ""
                 (Some (JS.JSObject [("identifier", JS.JSString "sim-1")])))
              (JS.JSObject [("identifier", JS.JSString "sim-1")])
              (JS.JSString "sim-1") eq_refl eq_refl eq_refl eq_refl)
    as [_ (log & Hlog & r & Hr & Hok)].
  - exists 2. intros log Hlen. unfold Frontend.results_ready, Frontend.slow_server.
    destruct (Nat.leb_spec 2 (length log)); [|lia].
    eexists; split; reflexivity.
  - change (Frontend.requests _)
      with ([Frontend.Simulate "depot" []] ++
            [Frontend.GetSimulationResults (JS.JSString "sim-1")]) in Hlog.
    apply app_inj_tail in Hlog as [<- _].
    simpl in Hr. injection Hr as <-. discriminate Hok.
Qed.

Lemma non_ok_response_alerts_and_returns_witness :
  let b := Frontend.initial_browser in
  let out := Frontend.simulate Frontend.refusing_server "depot" [] b in
  let out' := Frontend.getResults Frontend.refusing_server (JS.JSString "sim-1") b in
  (fst out = inr tt /\
   Frontend.alerts (snd out) = ["Error: Bad request"%string] /\
   Frontend.requests (snd out) = [Frontend.Simulate "depot" []] /\
   Frontend.results_requests (snd out) = [] /\
   Frontend.line_plot (Frontend.page (snd out)) = None /\
   Frontend.table_plot (Frontend.page (snd out)) = None) /\
  (fst out' = inr tt /\
   Frontend.alerts (snd out') = ["Error: Bad request"%string] /\
   Frontend.requests (snd out') =
     [Frontend.GetSimulationResults (JS.JSString "sim-1")] /\
   Frontend.line_plot (Frontend.page (snd out')) = None /\
   Frontend.table_plot (Frontend.page (snd out')) = None /\
   Frontend.simulation_id (Frontend.page (snd out')) = JS.JSString "N/A").
Proof.
  intros b out out'.
  destruct (non_ok_response_alerts_and_returns Frontend.refusing_server
              "depot" [] (JS.JSString "sim-1") Frontend.initial_browser
              (Frontend.mkResponse false "Bad request" None) eq_refl)
    as [Hsim Hres].
  split; [apply Hsim | apply Hres]; reflexivity.
Defined.

(** ** finance_plotter.ipynb: the scenario of the average return *)

Section Scenario.
Import Plotter.

Lemma float_pow_exponent_0 (x : pyfloat) : float_pow x 0%R = Some 1%R.
Proof. unfold float_pow. destruct (Req_dec_T 0 0); [reflexivity | contradiction]. Qed.

Lemma float_pow_positive_base (x y : R) :
  (0 < x)%R -> y <> 0%R -> float_pow (Some x) y = Some (Rpower x y).
Proof.
  intros Hx Hy. unfold float_pow, real_pow.
  destruct (Req_dec_T y 0); [contradiction|].
  destruct (Rlt_dec 0 x); [reflexivity | contradiction].
Qed.

Lemma float_pow_base_0 (y : R) :
  (0 < y)%R -> float_pow (Some 0%R) y = Some 0%R.
Proof.
  intros Hy. unfold float_pow, real_pow.
  destruct (Req_dec_T y 0); [lra|].
  destruct (Rlt_dec 0 0); [lra|].
  destruct (Req_dec_T 0 0); [|contradiction].
  destruct (Rlt_dec 0 y); [reflexivity | contradiction].
Qed.

(** A negative base has no real power with exponent 1/2. *)
Lemma float_pow_negative_base_half (x : R) :
  (x < 0)%R -> float_pow (Some x) (365 / 730)%R = None.
Proof.
  intros Hx. unfold float_pow, real_pow.
  destruct (Req_dec_T (365 / 730) 0); [lra|].
  destruct (Rlt_dec 0 x); [lra|].
  destruct (Req_dec_T x 0); [lra|].
  destruct (Req_dec_T (IZR (Int_part (365 / 730))) (365 / 730)) as [Hint|];
    [|reflexivity].
  exfalso.
  assert (H2 : IZR (2 * Int_part (365 / 730)) = IZR 1).
  { rewrite mult_IZR, Hint. lra. }
  apply eq_IZR in H2. lia.
Qed.

Lemma comprehension_total {A B} (f : A -> PyError + B) (g : A -> B) (l : list A) :
  (forall x, f x = inr (g x)) -> comprehension f l = inr (List.map g l).
Proof.
  intros Hf. induction l as [|x l IH]; simpl; [reflexivity|].
  rewrite Hf, IH. reflexivity.
Qed.

Lemma head_map {A B} (g : A -> B) (l : list A) :
  head (List.map g l) = option_map g (head l).
Proof. destruct l; reflexivity. Qed.

Lemma last_map {A B} (g : A -> B) (l : list A) :
  last (List.map g l) = option_map g (last l).
Proof.
  induction l as [|x [|y l] IH]; try reflexivity.
  exact IH.
Qed.

Lemma days_list_head (df : DataFrame) (d0 : Z) :
  head (Datum df) = Some d0 -> head (days_list df) = Some 0%Z.
Proof.
  unfold days_list. destruct (Datum df) as [|d l]; simpl; [discriminate|].
  intros _. f_equal. lia.
Qed.

Lemma days_list_last (df : DataFrame) (d0 dn : Z) :
  head (Datum df) = Some d0 -> last (Datum df) = Some dn ->
  last (days_list df) = Some (dn - d0)%Z.
Proof.
  unfold days_list. destruct (Datum df) as [|d l] eqn:E; [discriminate|].
  intros [= ->] Hlast. rewrite last_map, Hlast. reflexivity.
Qed.

(** The scenario, when the column is there and has a first value. *)
Lemma get_avg_return_scenario_value (df : DataFrame) (depot : list pyfloat)
    (v0 r : pyfloat) :
  columns df !! "Depotwert" = Some depot ->
  head depot = Some v0 ->
  get_avg_return_scenario df r "Depotwert" =
    inr (List.map
           (fun i : Z =>
              float_mul v0 (float_pow (float_add (Some 1%R) r) (IZR i / 365)%R))
           (days_list df)).
Proof.
  intros Hcol Hhead. unfold get_avg_return_scenario.
  apply comprehension_total. intros i.
  unfold getitem, iloc_first. rewrite Hcol. simpl. rewrite Hhead. reflexivity.
Qed.

(** The average return and its inverse power. *)
Lemma avg_return_inverts (v0 vn : R) (days : Z) :
  (0 < v0)%R -> (0 <= vn)%R -> (0 < days)%Z ->
  exists avg,
    float_sub (float_pow (float_div (Some vn) (Some v0)) (365 / IZR days)%R)
              (Some 1%R) = Some avg /\
    (0 < vn -> avg = Rpower (vn / v0) (365 / IZR days) - 1)%R /\
    float_mul (Some v0)
      (float_pow (float_add (Some 1%R) (Some avg)) (IZR days / 365)%R) = Some vn.
Proof.
  intros Hv0 Hvn Hdays.
  assert (Hd : (0 < IZR days)%R) by (apply IZR_lt; lia).
  assert (He : (365 / IZR days <> 0)%R).
  { apply Rgt_not_eq. apply Rdiv_lt_0_compat; lra. }
  assert (He' : (IZR days / 365 <> 0)%R).
  { apply Rgt_not_eq. apply Rdiv_lt_0_compat; lra. }
  unfold float_div. destruct (Req_dec_T v0 0); [lra|].
  destruct (Rle_lt_or_eq_dec _ _ Hvn) as [Hpos | <-].
  - assert (Hratio : (0 < vn / v0)%R) by (apply Rdiv_lt_0_compat; lra).
    rewrite (float_pow_positive_base _ _ Hratio He). simpl.
    eexists; split; [reflexivity|]. split; [reflexivity|].
    replace (1 + (Rpower (vn / v0) (365 / IZR days) - 1))%R
      with (Rpower (vn / v0) (365 / IZR days)) by ring.
    assert (Hpow : (0 < Rpower (vn / v0) (365 / IZR days))%R)
      by (unfold Rpower; apply exp_pos).
    rewrite (float_pow_positive_base _ _ Hpow He'). simpl.
    rewrite Rpower_mult.
    replace (365 / IZR days * (IZR days / 365))%R with 1%R by (field; lra).
    rewrite (Rpower_1 _ Hratio). f_equal. field. lra.
  - replace (0 / v0)%R with 0%R by (field; lra).
    rewrite float_pow_base_0 by (apply Rdiv_lt_0_compat; lra). simpl.
    eexists; split; [reflexivity|]. split; [intros; lra|].
    replace (1 + (0 - 1))%R with 0%R by ring.
    rewrite float_pow_base_0 by (apply Rdiv_lt_0_compat; lra). simpl.
    f_equal. ring.
Qed.

End Scenario.

Section ScenarioClaim.
Import Plotter.

(** The scenario on a frame with a positive first value, a last value that
    is not negative and a last date after the first. *)
Lemma scenario_of_load_data (df : DataFrame) (depot : list pyfloat)
    (d0 dn : Z) (v0 vn : R) (r : pyfloat) :
  head (Datum df) = Some d0 ->
  last (Datum df) = Some dn ->
  columns df !! "Depotwert" = Some depot ->
  head depot = Some (Some v0) ->
  last depot = Some (Some vn) ->
  (0 < v0)%R -> (0 <= vn)%R -> (d0 < dn)%Z ->
  (exists scenario,
     get_avg_return_scenario df r "Depotwert" = inr scenario /\
     head scenario = Some (Some v0)) /\
  (exists df' avg scenario,
     load_data df = inr (df', Some avg) /\
     (0 < vn -> avg = Rpower (vn / v0) (365 / IZR (dn - d0)) - 1)%R /\
     get_avg_return_scenario df (Some avg) "Depotwert" = inr scenario /\
     columns df' !! "Avg scenario" = Some scenario /\
     head scenario = Some (Some v0) /\
     last scenario = Some (Some vn)).
Proof.
  intros Hd0 Hdn Hcol Hv0 Hvn Hpos Hnonneg Hlt.
  assert (Hfirst : forall r',
    head (List.map
            (fun i : Z =>
               float_mul (Some v0)
                 (float_pow (float_add (Some 1%R) r') (IZR i / 365)%R))
            (days_list df)) = Some (Some v0)).
  { intros r'. rewrite head_map, (days_list_head _ _ Hd0). simpl.
    replace (0 / 365)%R with 0%R by (field; lra).
    rewrite float_pow_exponent_0. simpl. do 2 f_equal. ring. }
  split.
  - eexists. split; [apply (get_avg_return_scenario_value _ _ _ _ Hcol Hv0)|].
    apply Hfirst.
  - destruct (avg_return_inverts v0 vn (dn - d0) Hpos Hnonneg ltac:(lia))
      as (avg & Havg & Hformula & Hinv).
    eexists _, avg, _. split; [|split; [exact Hformula|split; [|split; [|split]]]].
    + unfold load_data, getitem, iloc_last, iloc_first.
      rewrite Hcol. cbn [bind]. rewrite Hvn, Hv0, Hdn, Hd0. cbn [bind].
      destruct (Z.eqb_spec (dn - d0) 0) as [Hz|_]; [lia|].
      rewrite Havg.
      rewrite (get_avg_return_scenario_value _ _ _ _ Hcol Hv0). cbn [bind].
      erewrite (get_avg_return_scenario_value (setitem df "Avg scenario" _));
        [reflexivity | | exact Hv0].
      cbn [setitem columns]. rewrite lookup_insert_ne by discriminate. exact Hcol.
    + apply (get_avg_return_scenario_value _ _ _ _ Hcol Hv0).
    + simpl. rewrite lookup_insert_ne by discriminate.
      apply lookup_insert_eq.
    + apply Hfirst.
    + rewrite last_map, (days_list_last _ _ _ Hd0 Hdn). simpl.
      f_equal. exact Hinv.
Qed.

(** C3, for a last value that is not negative: on a frame whose first row
    has the value [v0 > 0] on the date [d0] and whose last row has the value
    [vn >= 0] on a date [dn] after [d0], the scenario of every return [r]
    starts at [v0]; [load_data] returns the average return
    [(vn / v0) ** (365 / days) - 1], and the scenario of that return, which
    it stores as "Avg scenario", ends on [vn]. *)
Theorem avg_scenario_first_and_last (df : DataFrame) (depot : list pyfloat)
    (d0 dn : Z) (v0 vn : R) (r : pyfloat) :
  head (Datum df) = Some d0 ->
  last (Datum df) = Some dn ->
  columns df !! "Depotwert" = Some depot ->
  head depot = Some (Some v0) ->
  last depot = Some (Some vn) ->
  (0 < v0)%R -> (0 <= vn)%R -> (d0 < dn)%Z ->
  (exists scenario,
     get_avg_return_scenario df r "Depotwert" = inr scenario /\
     head scenario = Some (Some v0)) /\
  (exists df' avg scenario,
     load_data df = inr (df', Some avg) /\
     (0 < vn -> avg = Rpower (vn / v0) (365 / IZR (dn - d0)) - 1)%R /\
     get_avg_return_scenario df (Some avg) "Depotwert" = inr scenario /\
     columns df' !! "Avg scenario" = Some scenario /\
     head scenario = Some (Some v0) /\
     last scenario = Some (Some vn)) /\
  avg_scenario_ends_on_last_value df.
Proof.
  intros Hd0 Hdn Hcol Hv0 Hvn Hpos Hnonneg Hlt.
  destruct (scenario_of_load_data df depot d0 dn v0 vn r
              Hd0 Hdn Hcol Hv0 Hvn Hpos Hnonneg Hlt) as [Hstart Hload].
  split; [exact Hstart|]. split; [exact Hload|].
  destruct Hload as (df' & avg & scenario & Hl & _ & Hs & _ & _ & Hend).
  exists df', (Some avg), scenario, depot, vn.
  repeat split; try assumption.
  unfold getitem. rewrite Hcol. reflexivity.
Qed.

End ScenarioClaim.

Lemma avg_scenario_first_and_last_witness :
  (exists scenario,
     Plotter.get_avg_return_scenario Plotter.growing_frame
       Plotter.FIXED_SCENARIO_RETURN "Depotwert" = inr scenario /\
     head scenario = Some (Some 100%R)) /\
  (exists df' avg scenario,
     Plotter.load_data Plotter.growing_frame = inr (df', Some avg) /\
     (0 < 110 -> avg = Rpower (110 / 100) (365 / IZR (365 - 0)) - 1)%R /\
     Plotter.get_avg_return_scenario Plotter.growing_frame (Some avg)
       "Depotwert" = inr scenario /\
     Plotter.columns df' !! "Avg scenario" = Some scenario /\
     head scenario = Some (Some 100%R) /\
     last scenario = Some (Some 110%R)) /\
  Plotter.avg_scenario_ends_on_last_value Plotter.growing_frame.
Proof.
  apply (avg_scenario_first_and_last Plotter.growing_frame
           [Some 100%R; Some 110%R] 0 365 100 110 Plotter.FIXED_SCENARIO_RETURN).
  - reflexivity.
  - reflexivity.
  - reflexivity.
  - reflexivity.
  - reflexivity.
  - lra.
  - lra.
  - lia.
Defined.

(** C3, as the claim has it, fails for a negative last value: on the frame
    with the rows (day 0, 1) and (day 730, -1) the first value is positive
    and the last date is after the first, the ratio is -1 and the exponent
    365 / 730, so the average return is no real number, and neither is the
    last element of its scenario. *)
Lemma avg_scenario_misses_negative_last_value :
  ~ Plotter.avg_scenario_ends_on_last_value Plotter.negative_frame.
Proof.
  intros (df' & avg & scenario & depot & vn & Hload & Hscen & Hget & Hlast & Hend).
  pose (series := [Some 1%R; Some (-1)%R] : list Plotter.pyfloat).
  assert (Hcol : Plotter.columns Plotter.negative_frame !! "Depotwert" =
                 Some series) by reflexivity.
  assert (Hitem : Plotter.getitem Plotter.negative_frame "Depotwert" =
                  inr series) by reflexivity.
  assert (Havg : avg = None).
  { unfold Plotter.load_data, Plotter.iloc_last, Plotter.iloc_first in Hload.
    rewrite Hitem in Hload. cbn [Plotter.bind last head series] in Hload.
    cbn [Plotter.negative_frame Plotter.Datum last head Plotter.bind] in Hload.
    change (730 - 0 =? 0)%Z with false in Hload. cbv iota in Hload.
    change (730 - 0)%Z with 730%Z in Hload.
    assert (Hdiv : Plotter.float_div (Some (-1)%R) (Some 1%R) = Some (-1 / 1)%R).
    { unfold Plotter.float_div. destruct (Req_dec_T 1 0); [lra | reflexivity]. }
    rewrite Hdiv, float_pow_negative_base_half in Hload by lra.
    cbn [Plotter.float_sub] in Hload.
    destruct (Plotter.get_avg_return_scenario Plotter.negative_frame None
                "Depotwert"); [discriminate|].
    cbn [Plotter.bind] in Hload.
    destruct (Plotter.get_avg_return_scenario _ Plotter.FIXED_SCENARIO_RETURN
                "Depotwert"); [discriminate|].
    cbn [Plotter.bind] in Hload. congruence. }
  subst avg.
  rewrite (get_avg_return_scenario_value _ _ (Some 1%R) None Hcol eq_refl) in Hscen.
  injection Hscen as <-.
  cbn [Plotter.days_list Plotter.negative_frame Plotter.Datum List.map last
       Plotter.float_add] in Hend.
  unfold Plotter.float_pow in Hend.
  destruct (Req_dec_T (IZR (730 - 0) / 365) 0) as [Hz|_].
  - change (730 - 0)%Z with 730%Z in Hz. lra.
  - discriminate Hend.
Qed.


(** ** finance_plotter.ipynb: the cells *)

Section Cells.
Import Notebook.

Lemma for_each_inr {A B} (f : A -> PyError + B) (l : list A) (ys : list B) :
  for_each f l = inr ys -> Forall (fun x => exists y, f x = inr y) l.
Proof.
  revert ys. induction l as [|x l IH]; intros ys H; [constructor|].
  simpl in H. destruct (f x) as [e|y] eqn:Hx; [discriminate|].
  simpl in H. destruct (for_each f l) as [e|ys'] eqn:Hl; [discriminate|].
  constructor; [eauto | eapply IH; reflexivity].
Qed.

Lemma lookup_name_inr (ns : Namespace) (name : string) (o : Object) :
  lookup_name ns name = inr o -> is_Some (ns !! name) \/ In name builtins.
Proof.
  unfold lookup_name. destruct (ns !! name) as [o'|]; [eauto|].
  destruct (existsb (String.eqb name) builtins) eqn:Hb; [|discriminate].
  intros _. right. apply existsb_exists in Hb as (b & Hin & Heq).
  apply String.eqb_eq in Heq. subst. exact Hin.
Qed.

(** An expression evaluates only when every name it reads is bound, by a
    statement run before or as a builtin. *)
Lemma eval_reads_bound depth ns argument (e : Expr) r :
  eval depth ns argument e = inr r ->
  Forall (fun name => is_Some (ns !! name) \/ In name builtins) (reads e).
Proof.
  destruct depth as [|depth]; [discriminate|]. simpl.
  destruct (for_each (lookup_name ns) (reads e)) as [err|objects] eqn:Hreads;
    [discriminate|].
  intros _. apply for_each_inr in Hreads.
  eapply Forall_impl; [exact Hreads|].
  intros name [o Ho]. exact (lookup_name_inr _ _ _ Ho).
Qed.

(** A markdown cell leaves the globals as they are, and a code cell hands
    its globals to the cells after it. *)
Lemma run_from_markdown ns text rest :
  run_from ns (Markdown text :: rest) =
    bind (run_from ns rest) (fun results => inr ((Markdown text, []) :: results)).
Proof. reflexivity. Qed.

Lemma charted_true kind source effects :
  charted kind source effects = true ->
  exists holding from,
    In (Shown holding from) effects /\ kind ∈ holding /\ source ∈ from.
Proof.
  unfold charted. intros H. apply existsb_exists in H as (ev & Hin & Hev).
  destruct ev as [| | | |s l|holding from]; try discriminate.
  apply andb_prop in Hev as [Hk Hs].
  apply bool_decide_eq_true in Hk, Hs. eauto.
Qed.

End Cells.

(** C7, as the cells have it, for the names the cells read and bind: in both
    revisions of the notebook, running the cells in file order never reads a
    name that no statement before it has bound (in an earlier cell or earlier
    in the same cell) and that is no builtin. The order is needed: without
    its import cell the first revision stops at [get_net_worth_history], and
    without the cell that computes [median] the inline revision stops at
    [median]. Cell by cell, the code cells install a package, set up
    (imports, constants, function definitions), load data, transform data,
    draw charts, or are empty; none runs another shell command. The one loop
    is the [for] inside the histogram cell of the inline revision. What the
    loaders and chart constructors do with the files they are given is not
    part of the statement. *)
Theorem notebooks_run_cell_by_cell :
  (exists results,
      Notebook.run Notebook.finance_plotter = inr results /\
      List.map fst results = Notebook.finance_plotter /\
      List.map Notebook.cell_kind results =
        [Notebook.Installs; Notebook.SetsUp; Notebook.Prose; Notebook.SetsUp;
         Notebook.LoadsData; Notebook.LoadsData; Notebook.Prose;
         Notebook.DrawsChart; Notebook.DrawsChart; Notebook.DrawsChart;
         Notebook.Prose; Notebook.DrawsChart; Notebook.Prose;
         Notebook.DrawsChart; Notebook.Prose; Notebook.DrawsChart;
         Notebook.Prose; Notebook.DrawsChart; Notebook.Prose;
         Notebook.DrawsChart; Notebook.Prose; Notebook.DrawsChart;
         Notebook.DrawsChart; Notebook.DrawsChart; Notebook.DrawsChart;
         Notebook.DrawsChart; Notebook.DrawsChart; Notebook.Blank]) /\
  (exists results,
      Notebook.run Notebook.finance_plotter_inline = inr results /\
      List.map fst results = Notebook.finance_plotter_inline /\
      List.map Notebook.cell_kind results =
        [Notebook.SetsUp; Notebook.SetsUp; Notebook.Prose; Notebook.SetsUp;
         Notebook.SetsUp; Notebook.LoadsData; Notebook.Prose;
         Notebook.DrawsChart; Notebook.DrawsChart; Notebook.Prose;
         Notebook.DrawsChart; Notebook.Prose; Notebook.DrawsChart;
         Notebook.Prose; Notebook.TransformsData; Notebook.SetsUp;
         Notebook.DrawsChart; Notebook.Prose; Notebook.DrawsChart;
         Notebook.Blank]) /\
  Notebook.run (Notebook.without_cell 1 Notebook.finance_plotter) =
    inl (Notebook.NameError "get_net_worth_history") /\
  Notebook.run (Notebook.without_cell 14 Notebook.finance_plotter_inline) =
    inl (Notebook.NameError "median") /\
  Notebook.loops_per_cell Notebook.finance_plotter = repeat 0 28 /\
  Notebook.loops_per_cell Notebook.finance_plotter_inline =
    repeat 0 16 ++ [1] ++ repeat 0 3.
Proof.
  split; [|split; [|split; [|split; [|split]]]].
  - eexists. split; [vm_compute; reflexivity|].
    split; vm_compute; reflexivity.
  - eexists. split; [vm_compute; reflexivity|].
    split; vm_compute; reflexivity.
  - vm_compute. reflexivity.
  - vm_compute. reflexivity.
  - reflexivity.
  - reflexivity.
Qed.

(** C7, as the claim has it, fails on the first cell: it runs
    [!pip install yahoofinancials] and [%pip install yahoofinancials], which
    neither load nor transform data nor make a chart. *)
Lemma first_cell_installs_a_package :
  ~ Notebook.data_and_chart_script Notebook.finance_plotter.
Proof.
  intros (results & Hrun & Hcells).
  vm_compute in Hrun. injection Hrun as <-.
  specialize (Hcells _ _ (or_introl eq_refl)).
  discriminate Hcells.
Qed.

(** C8: the notebook loads the net-worth history and the depot history from
    the export directory ("~/Desktop") and displays charts made from them: a
    gauge, line plots, area plots, pies, a histogram and a bubble chart. *)
Theorem notebook_charts_the_histories :
  exists results,
    Notebook.run Notebook.finance_plotter = inr results /\
    let effects := Notebook.all_effects results in
    Notebook.loaded_from Notebook.NetWorthHistory "~/Desktop" effects = true /\
    Notebook.loaded_from Notebook.DepotHistory "~/Desktop" effects = true /\
    Notebook.charted Notebook.Gauge Notebook.NetWorthHistory effects = true /\
    Notebook.charted Notebook.Line Notebook.NetWorthHistory effects = true /\
    Notebook.charted Notebook.Line Notebook.DepotHistory effects = true /\
    Notebook.charted Notebook.Area Notebook.NetWorthHistory effects = true /\
    Notebook.charted Notebook.Area Notebook.DepotHistory effects = true /\
    Notebook.charted Notebook.Pie Notebook.NetWorthHistory effects = true /\
    Notebook.charted Notebook.Pie Notebook.DepotHistory effects = true /\
    Notebook.charted Notebook.Histogram Notebook.NetWorthHistory effects = true /\
    Notebook.charted Notebook.Bubble Notebook.NetWorthHistory effects = true.
Proof.
  eexists. split; [vm_compute; reflexivity|].
  vm_compute. repeat split.
Qed.

(** ** The views behind the simulation page *)

Section Views.
Import JS Backend.

Variable cli : string -> list CLIArgument -> JSValue.

Lemma step_consistent ev s :
  consistent cli s -> consistent cli (fst (step cli ev s)).
Proof.
  intros Hs. destruct ev as [st a|identifier|identifier]; simpl.
  - intros i p Hp. simpl in Hp.
    destruct (decide (next_identifier s = i)) as [<-|Hne].
    + rewrite lookup_insert_eq in Hp. injection Hp as <-. simpl.
      split; [lia | discriminate].
    + rewrite lookup_insert_ne in Hp by exact Hne.
      destruct (Hs i p Hp) as [Hlt Hout]. simpl. split; [lia | exact Hout].
  - destruct (processes s !! identifier) as [[st a [data|]]|] eqn:Hid;
      simpl; try exact Hs.
    intros i p Hp. simpl in Hp.
    destruct (decide (identifier = i)) as [<-|Hne].
    + rewrite lookup_insert_eq in Hp. injection Hp as <-. simpl.
      split; [exact (proj1 (Hs _ _ Hid)) | congruence].
    + rewrite lookup_insert_ne in Hp by exact Hne. exact (Hs i p Hp).
  - destruct (processes s !! identifier) as [[st a [data|]]|]; exact Hs.
Qed.

Lemma run_consistent events s :
  consistent cli s -> consistent cli (run cli events s).
Proof.
  revert s. induction events as [|ev events IH]; intros s Hs; [exact Hs|].
  simpl. apply IH, step_consistent, Hs.
Qed.

Lemma initial_consistent : consistent cli initial.
Proof. intros i p Hp. simpl in Hp. rewrite lookup_empty in Hp. discriminate. Qed.

(** A process keeps its command, whatever happens after it is spawned. *)
Lemma step_keeps_command ev s identifier p :
  consistent cli s ->
  processes s !! identifier = Some p ->
  exists p',
    processes (fst (step cli ev s)) !! identifier = Some p' /\
    simulation_type p' = simulation_type p /\ args p' = args p.
Proof.
  intros Hs Hp. destruct ev as [st a|i|i]; simpl.
  - exists p. rewrite lookup_insert_ne; [auto|].
    destruct (Hs _ _ Hp) as [Hlt _]. lia.
  - destruct (processes s !! i) as [[st a [data|]]|] eqn:Hi; simpl; eauto.
    destruct (decide (i = identifier)) as [->|Hne].
    + rewrite lookup_insert_eq. rewrite Hp in Hi. injection Hi as ->.
      eexists; split; [reflexivity|]. simpl. auto.
    + rewrite lookup_insert_ne by exact Hne. eauto.
  - destruct (processes s !! i) as [[st a [data|]]|]; simpl; eauto.
Qed.

Lemma run_keeps_command events s identifier p :
  consistent cli s ->
  processes s !! identifier = Some p ->
  exists p',
    processes (run cli events s) !! identifier = Some p' /\
    simulation_type p' = simulation_type p /\ args p' = args p.
Proof.
  revert s p. induction events as [|ev events IH]; intros s p Hs Hp; [eauto|].
  simpl.
  destruct (step_keeps_command ev s identifier p Hs Hp) as (p1 & Hp1 & Hst & Ha).
  destruct (IH _ p1 (step_consistent ev s Hs) Hp1) as (p2 & Hp2 & Hst2 & Ha2).
  exists p2. split; [exact Hp2|]. split; congruence.
Qed.

(** C5, on the views as the specification describes them: a simulate request,
    after any requests and exits before it, spawns a subprocess of the CLI
    with the simulation type and the arguments under an identifier not in
    use; whatever happens afterwards, results served for that identifier are
    what the CLI prints for that type and those arguments; and they are
    served once the subprocess has exited. *)
Theorem served_results_are_subprocess_output
    (before after : list Event) (st : string) (a : list CLIArgument) :
  let s := run cli before initial in
  let accepted := step cli (SimulateRequest st a) s in
  exists identifier,
    snd accepted = Accepted identifier /\
    processes s !! identifier = None /\
    processes (fst accepted) !! identifier = Some (mkProcess st a None) /\
    (forall data,
       snd (step cli (ResultsRequest identifier) (run cli after (fst accepted)))
         = Results data ->
       data = cli st a) /\
    snd (step cli (ResultsRequest identifier)
           (run cli [ProcessExit identifier] (fst accepted)))
      = Results (cli st a).
Proof.
  intros s accepted.
  assert (Hs : consistent cli s) by apply run_consistent, initial_consistent.
  exists (next_identifier s). subst accepted. simpl.
  split; [reflexivity|]. split; [|split; [|split]].
  - destruct (processes s !! next_identifier s) as [p|] eqn:Hp; [|reflexivity].
    destruct (Hs _ _ Hp) as [Hlt _]. lia.
  - apply lookup_insert_eq.
  - intros data.
    set (s1 := mkState _ _).
    assert (Hs1 : consistent cli s1)
      by exact (step_consistent (SimulateRequest st a) s Hs).
    destruct (run_keeps_command after s1 (next_identifier s)
                (mkProcess st a None) Hs1 (lookup_insert_eq _ _ _))
      as (p & Hp & Hst & Ha).
    rewrite Hp. destruct p as [st' a' [data'|]]; simpl in *; [|discriminate].
    intros [= <-]. subst st' a'.
    exact (proj2 (run_consistent after s1 Hs1 _ _ Hp) _ eq_refl).
  - rewrite lookup_insert_eq. simpl. rewrite lookup_insert_eq. reflexivity.
Qed.

End Views.

(** ** The macros of the spreadsheet *)

Section MacroRuns.
Import Macros.

Lemma run_macro_frame macro r (cell : string * (nat * nat)) :
  ~ In cell (cells_written macro) ->
  sheet (run_macro macro r) !! cell = sheet r !! cell.
Proof.
  revert r. induction macro as [|op macro IH]; intros r Hcell; [reflexivity|].
  change (run_macro (op :: macro) r) with (run_macro macro (exec op r)).
  destruct op as [x c|x e|c x]; simpl in Hcell; rewrite IH by tauto;
    try reflexivity.
  simpl. apply lookup_insert_ne. tauto.
Qed.

(** Two runs that agree on the variables and on the cells the macro reads
    do the same reads and the same writes. *)
Lemma run_macro_reads macro r1 r2 :
  env r1 = env r2 ->
  trace r1 = trace r2 ->
  (forall cell, In cell (cells_read macro) -> sheet r1 !! cell = sheet r2 !! cell) ->
  trace (run_macro macro r1) = trace (run_macro macro r2).
Proof.
  revert r1 r2. induction macro as [|op macro IH]; intros r1 r2 Henv Htrace Hread;
    [exact Htrace|].
  change (run_macro (op :: macro) ?r) with (run_macro macro (exec op r)).
  apply IH; destruct op as [x c|x e|c x]; simpl in *.
  - rewrite Henv, (Hread c) by auto. reflexivity.
  - rewrite Henv. reflexivity.
  - exact Henv.
  - rewrite Htrace, (Hread c) by auto. reflexivity.
  - exact Htrace.
  - rewrite Htrace, Henv. reflexivity.
  - intros cell Hin. apply Hread. auto.
  - exact Hread.
  - intros cell Hin. rewrite Henv.
    destruct (decide (c = cell)) as [->|Hne].
    + rewrite !lookup_insert_eq. reflexivity.
    + rewrite !lookup_insert_ne by exact Hne. apply Hread, Hin.
Qed.

Example click_sum :
  click "Sum" sample_document =
    (mkDocument (<[("Depot", (1, 4)) := 42%Z]> (cells sample_document))
                (buttons sample_document),
     [CellRead ("Depot", (1, 2)) 40; CellRead ("Depot", (1, 3)) 2;
      CellWritten ("Depot", (1, 4)) 42]).
Proof. reflexivity. Qed.

(** C4, on the macros as the specification describes them: a macro runs when
    its button is clicked and not otherwise; the click leaves the buttons as
    they are and every cell the macro does not write as it was; and what is
    read and written is the same on every document that agrees on the cells
    the macro reads. *)
Theorem click_reads_and_writes_cells (doc : Document) (button : string) :
  let result := click button doc in
  buttons (fst result) = buttons doc /\
  (buttons doc !! button = None -> result = (doc, [])) /\
  (forall macro,
     buttons doc !! button = Some macro ->
     (forall cell, ~ In cell (cells_written macro) ->
                   cells (fst result) !! cell = cells doc !! cell) /\
     (forall doc',
        buttons doc' !! button = Some macro ->
        (forall cell, In cell (cells_read macro) ->
                      cells doc' !! cell = cells doc !! cell) ->
        snd (click button doc') = snd result)).
Proof.
  intros result. subst result. unfold click.
  destruct (buttons doc !! button) as [macro|] eqn:Hb; simpl.
  - split; [reflexivity|]. split; [discriminate|].
    intros ? [= <-]. split.
    + intros cell Hcell.
      exact (run_macro_frame macro (mkRun ∅ (cells doc) []) cell Hcell).
    + intros doc' Hb' Hread. rewrite Hb'. simpl.
      apply run_macro_reads; simpl; auto.
  - split; [reflexivity|]. split; [reflexivity|]. discriminate.
Qed.

End MacroRuns.

(** ** simulation-view.html: every way the handlers can end *)

Ltac unfold_handlers :=
  unfold Frontend.getResults, Frontend.simulate, Frontend.bind, Frontend.fetch,
    Frontend.set_status, Frontend.set_id, Frontend.alert, Frontend.response_json,
    Frontend.lift, Frontend.newPlot_line, Frontend.newPlot_table, Frontend.ret,
    Frontend.throw;
  simpl.

Section HandlerOutcomes.
Import JS Frontend.

Variable server : Server.

(** [getResults] shows at most one alert. *)
Lemma getResults_alerts (identifier : JSValue) (b : Browser) :
  alerts (snd (getResults server identifier b)) = alerts b \/
  exists msg, alerts (snd (getResults server identifier b)) = alerts b ++ [msg].
Proof.
  unfold_handlers.
  destruct (server (requests b) (GetSimulationResults identifier)) as [r|];
    [|auto].
  simpl. destruct (ok r); simpl; [|eauto].
  destruct (json r) as [parsed|]; simpl; [|auto].
  destruct (property parsed "data") as [e|data]; simpl; [auto|].
  destruct (property data "line"); simpl; [auto|].
  destruct (property data "table"); auto.
Qed.

(** A property read off a value that has properties is never refused. *)
Lemma property_inr_twice (v : JSValue) (k1 k2 : string) (x : JSValue) :
  property v k1 = inr x -> exists y, property v k2 = inr y.
Proof. destruct v; simpl; intros H; try discriminate; eauto. Qed.

(** X1: [getResults] ends in one of three ways, and in each of them it has sent
    one request and left the identifier shown alone: both plots are drawn
    from the [data] of the response and the status is "Done"; or the response
    was not ok, its text is alerted and nothing is drawn; or the call is
    rejected, nothing is alerted and nothing is drawn. The status is
    "Retrieving results" in the last two. *)
Theorem getResults_outcomes (identifier : JSValue) (b : Browser) :
  let out := getResults server identifier b in
  requests (snd out) = requests b ++ [GetSimulationResults identifier] /\
  simulation_id (page (snd out)) = simulation_id (page b) /\
  ((exists r parsed data line table,
      server (requests b) (GetSimulationResults identifier) = Some r /\
      ok r = true /\ json r = Some parsed /\
      property parsed "data" = inr data /\
      property data "line" = inr line /\ property data "table" = inr table /\
      fst out = inr tt /\
      page (snd out) =
        mkPage (simulation_id (page b)) "Done" (Some line) (Some table) /\
      alerts (snd out) = alerts b) \/
   (exists r,
      server (requests b) (GetSimulationResults identifier) = Some r /\
      ok r = false /\
      fst out = inr tt /\
      page (snd out) =
        mkPage (simulation_id (page b)) "Retrieving results"
               (line_plot (page b)) (table_plot (page b)) /\
      alerts (snd out) = alerts b ++ [("Error: " ++ text r)%string]) \/
   (exists e,
      fst out = inl e /\
      page (snd out) =
        mkPage (simulation_id (page b)) "Retrieving results"
               (line_plot (page b)) (table_plot (page b)) /\
      alerts (snd out) = alerts b)).
Proof.
  intros out. subst out. unfold_handlers.
  destruct (server (requests b) (GetSimulationResults identifier)) as [r|] eqn:Hr;
    simpl; [|split; [reflexivity|]; split; [reflexivity|]; right; right; eauto].
  destruct (ok r) eqn:Hok; simpl;
    [|split; [reflexivity|]; split; [reflexivity|]; right; left;
      exists r; rewrite Hok; auto].
  destruct (json r) as [parsed|] eqn:Hjson; simpl;
    [|split; [reflexivity|]; split; [reflexivity|]; right; right; eauto].
  destruct (property parsed "data") as [e|data] eqn:Hdata; simpl;
    [split; [reflexivity|]; split; [reflexivity|]; right; right; eauto|].
  destruct (property data "line") as [e|line] eqn:Hline; simpl;
    [split; [reflexivity|]; split; [reflexivity|]; right; right; eauto|].
  destruct (property_inr_twice data "line" "table" line Hline) as [table Htable].
  rewrite Htable. simpl.
  split; [reflexivity|]. split; [reflexivity|]. left.
  exists r, parsed, data, line, table. rewrite Hok. auto 10.
Qed.

(** X2: [simulate] sends the simulate request first and at most one request
    after it, shows at most one alert, and never shows an identifier other
    than "pending" unless the server has answered with one. *)
Theorem simulate_sends_at_most_two_requests (simulation_type : string)
    (args : list CLIArgument) (b : Browser) :
  let out := simulate server simulation_type args b in
  (requests (snd out) = requests b ++ [Simulate simulation_type args] /\
   simulation_id (page (snd out)) = JSString "pending" \/
   exists identifier,
     requests (snd out) =
       requests b ++ [Simulate simulation_type args;
                      GetSimulationResults identifier] /\
     simulation_id (page (snd out)) = identifier) /\
  (alerts (snd out) = alerts b \/
   exists msg, alerts (snd out) = alerts b ++ [msg]).
Proof.
  intros out. subst out.
  destruct (server (requests b) (Simulate simulation_type args)) as [r|] eqn:Hr;
    [|unfold_handlers; rewrite Hr; simpl; auto].
  destruct (ok r) eqn:Hok;
    [|rewrite (simulate_refused _ _ _ _ _ Hr Hok); simpl;
      split; [left; split; reflexivity | right; eexists; reflexivity]].
  destruct (json r) as [data|] eqn:Hjson;
    [|unfold_handlers; rewrite Hr, Hok; simpl; rewrite Hjson; simpl; auto].
  destruct (property data "identifier") as [e|identifier] eqn:Hid;
    [unfold_handlers; rewrite Hr, Hok; simpl; rewrite Hjson, Hid; simpl; auto|].
  rewrite (simulate_accepted _ _ _ _ _ _ _ Hr Hok Hjson Hid).
  set (b1 := mkBrowser _ _ _).
  split.
  - right. exists identifier.
    rewrite getResults_requests, getResults_simulation_id. subst b1. simpl.
    rewrite <- app_assoc. auto.
  - exact (getResults_alerts identifier b1).
Qed.


(** X4: when [simulate] is rejected (a fetch fails, a body is not JSON, a
    property of [null] is read), the user is told nothing: no alert is
    shown, both plots are as they were, and the status stays "Simulating" or
    "Retrieving results". *)
Theorem simulate_rejected_silently (simulation_type : string)
    (args : list CLIArgument) (b : Browser) (e : JSError) :
  fst (simulate server simulation_type args b) = inl e ->
  let b' := snd (simulate server simulation_type args b) in
  alerts b' = alerts b /\
  line_plot (page b') = line_plot (page b) /\
  table_plot (page b') = table_plot (page b) /\
  (simulation_status (page b') = "Simulating" \/
   simulation_status (page b') = "Retrieving results").
Proof.
  intros Hrej b'. subst b'. revert Hrej.
  destruct (server (requests b) (Simulate simulation_type args)) as [r|] eqn:Hr;
    [|unfold_handlers; rewrite Hr; simpl; auto].
  destruct (ok r) eqn:Hok;
    [|rewrite (simulate_refused _ _ _ _ _ Hr Hok); discriminate].
  destruct (json r) as [data|] eqn:Hjson;
    [|unfold_handlers; rewrite Hr, Hok; simpl; rewrite Hjson; simpl; auto].
  destruct (property data "identifier") as [e'|identifier] eqn:Hid;
    [unfold_handlers; rewrite Hr, Hok; simpl; rewrite Hjson, Hid; simpl; auto|].
  rewrite (simulate_accepted _ _ _ _ _ _ _ Hr Hok Hjson Hid).
  remember (mkBrowser (mkPage identifier "Simulating" (line_plot (page b))
                         (table_plot (page b)))
              (alerts b) (requests b ++ [Simulate simulation_type args]))
    as b1 eqn:Hb1.
  assert (Hb : alerts b1 = alerts b /\ line_plot (page b1) = line_plot (page b) /\
               table_plot (page b1) = table_plot (page b))
    by (subst b1; auto).
  destruct Hb as (<- & <- & <-).
  destruct (server (requests b1) (GetSimulationResults identifier)) as [r'|] eqn:Hr';
    [|unfold_handlers; rewrite Hr'; simpl; auto].
  destruct (ok r') eqn:Hok';
    [|rewrite (getResults_refused _ _ _ _ Hr' Hok'); discriminate].
  destruct (json r') as [parsed|] eqn:Hjson';
    [|unfold_handlers; rewrite Hr', Hok'; simpl; rewrite Hjson'; simpl; auto].
  destruct (property parsed "data") as [e'|results] eqn:Hdata;
    [unfold_handlers; rewrite Hr', Hok'; simpl; rewrite Hjson', Hdata; simpl; auto|].
  destruct (property results "line") as [e'|line] eqn:Hline;
    [unfold_handlers; rewrite Hr', Hok'; simpl; rewrite Hjson', Hdata; simpl;
     rewrite Hline; simpl; auto|].
  destruct (property_inr_twice results "line" "table" line Hline) as [table Htable].
  rewrite (getResults_served _ _ _ _ _ _ _ _ Hr' Hok' Hjson' Hdata Hline Htable).
  discriminate.
Qed.

End HandlerOutcomes.


Lemma simulate_rejected_silently_witness :
  let b' := snd (Frontend.simulate Servers.garbled_server "depot" []
                   Frontend.initial_browser) in
  Frontend.alerts b' = [] /\
  Frontend.line_plot (Frontend.page b') = None /\
  Frontend.table_plot (Frontend.page b') = None /\
  (Frontend.simulation_status (Frontend.page b') = "Simulating" \/
   Frontend.simulation_status (Frontend.page b') = "Retrieving results").
Proof.
  exact (simulate_rejected_silently Servers.garbled_server "depot" []
           Frontend.initial_browser JS.SyntaxError eq_refl).
Defined.

(** ** configuration-form.html *)

Section ConfigurationForm.
Import JS Form.

(** X5: what the form sends of an argument and [fromJSON] reads back: the key,
    the display name and the type survive, the value and the default value
    are [undefined] again. *)
Theorem fromJSON_of_getArgumentsWithValues (arguments : list CLIArgument) :
  fromJSON_each (getArgumentsWithValues arguments) =
    inr (List.map
           (fun a => mkCLIArgument (key a) (display_name a) (type a)
                                   JSUndefined JSUndefined)
           arguments).
Proof.
  induction arguments as [|a arguments IH]; [reflexivity|].
  change (getArgumentsWithValues (a :: arguments))
    with (JSObject [("key", key a); ("type", type a);
                    ("display_name", display_name a); ("value", value a)]
          :: getArgumentsWithValues arguments).
  cbn [fromJSON_each]. rewrite IH. reflexivity.
Qed.

(** [for..of] walks a text by characters, not by bytes: "z" followed by a
    character of two bytes (195, 169) gives two items. *)
Example iterate_text :
  iterate (JSString (String (Ascii.ascii_of_nat 122)
                       (String (Ascii.ascii_of_nat 195)
                          (String (Ascii.ascii_of_nat 169) EmptyString)))) =
    inr [JSString "z";
         JSString (String (Ascii.ascii_of_nat 195)
                     (String (Ascii.ascii_of_nat 169) EmptyString))].
Proof. reflexivity. Qed.

(** X6: one pass of the loop of [submit], for an argument whose key is the
    text [name]: the key, the display name, the type and the default value
    stay; without an element called [name] the argument is left as it is;
    with one, the value becomes [null] when there is an element called
    [name_toggle] and it is not checked, and otherwise what the element
    holds, the state of a checkbox and the text of anything else, a typed
    number staying a text. *)
Theorem read_input_value (document : list (string * Input)) (arg : CLIArgument)
    (name : string) :
  key arg = JSString name ->
  let arg' := read_input document arg in
  key arg' = key arg /\
  display_name arg' = display_name arg /\
  type arg' = type arg /\
  default_value arg' = default_value arg /\
  match getElementsByName_first document name with
  | None => arg' = arg
  | Some input =>
      value arg' =
        match getElementsByName_first document (name ++ "_toggle") with
        | Some toggle => if checked toggle then entered input else JSNull
        | None => entered input
        end
  end.
Proof.
  intros Hkey arg'. subst arg'. unfold read_input, entered.
  assert (Hname : to_string (key arg) = name) by (rewrite Hkey; reflexivity).
  rewrite Hname. clear Hname Hkey.
  destruct (getElementsByName_first document name) as [input|];
    [|repeat split; reflexivity].
  destruct (getElementsByName_first document (name ++ "_toggle")) as [toggle|];
    [destruct (checked toggle)|];
    cbn [negb]; destruct (String.eqb (input_type input) "checkbox");
    rewrite !setValue_assigns_last; repeat split; reflexivity.
Qed.

(** The loop over the additional arguments shows one prompt per argument,
    with its display name as the message, and stores the answer. *)
Lemma prompt_each_returns (user : User) (items : list JSValue) (s s' : Session)
    (args_to_send : list CLIArgument) :
  prompt_each user items s = (inr args_to_send, s') ->
  Forall (fun a => is_prompt_value (value a) = true) args_to_send /\
  prompts s' = prompts s ++ List.map display_name args_to_send /\
  browser s' = browser s /\
  additional_requests s' = additional_requests s /\
  hold_replies user (prompts s) args_to_send.
Proof.
  revert s s' args_to_send.
  induction items as [|item items IH]; intros s s' args_to_send Hrun;
    cbn [prompt_each] in Hrun.
  - injection Hrun as <- <-. rewrite app_nil_r.
    repeat split; constructor.
  - destruct (fromJSON item) as [e|arg] eqn:Harg; [discriminate|].
    destruct (prompt_each user items (snd (prompt user (display_name arg) s)))
      as [[e|rest] s1] eqn:Hrest; [discriminate|].
    injection Hrun as <- <-.
    destruct (IH _ _ _ Hrest)
      as (Hvalues & Hprompts & Hbrowser & Hrequests & Hreplies).
    split; [|split; [|split; [|split]]].
    + constructor; [|exact Hvalues].
      rewrite setValue_assigns_last. simpl.
      destruct (user (prompts s) (display_name arg)); reflexivity.
    + rewrite Hprompts. simpl. rewrite setValue_assigns_last. simpl.
      rewrite <- app_assoc. reflexivity.
    + rewrite Hbrowser. reflexivity.
    + rewrite Hrequests. reflexivity.
    + cbn [hold_replies]. rewrite setValue_assigns_last. split; [reflexivity|].
      exact Hreplies.
Qed.

Lemma hold_replies_app (user : User) (shown : list JSValue)
    (first more : list CLIArgument) :
  hold_replies user shown first ->
  hold_replies user (shown ++ List.map display_name first) more ->
  hold_replies user shown (first ++ more).
Proof.
  revert shown. induction first as [|a first IH]; intros shown Hfirst Hmore.
  - simpl in Hmore. rewrite app_nil_r in Hmore. exact Hmore.
  - destruct Hfirst as [Ha Hfirst]. split; [exact Ha|].
    apply IH; [exact Hfirst|].
    rewrite <- app_assoc. exact Hmore.
Qed.

Lemma prompt_each_browser (user : User) (items : list JSValue) (s : Session) :
  browser (snd (prompt_each user items s)) = browser s /\
  additional_requests (snd (prompt_each user items s)) = additional_requests s.
Proof.
  revert s. induction items as [|item items IH]; intros s; cbn [prompt_each];
    [auto|].
  destruct (fromJSON item) as [e|arg]; [auto|].
  specialize (IH (snd (prompt user (display_name arg) s))).
  destruct (prompt_each user items (snd (prompt user (display_name arg) s)))
    as [[e|rest] s1]; simpl in *; exact IH.
Qed.

Variable server : ArgsServer.
Variable user : User.

(** The paths through one round of [promptForAdditionalArgs], [tac] closing
    the ones that end the round early. *)
Ltac prompt_paths tac :=
  cbn [promptForAdditionalArgs];
  match goal with
  | |- context [server ?log ?a] =>
      destruct (server log a) as [response|] eqn:Hresponse; [|tac]
  end;
  match goal with
  | |- context [Frontend.ok ?r] =>
      destruct (Frontend.ok r) eqn:Hok; cbn [negb]; [|tac]
  end;
  match goal with
  | |- context [Frontend.json ?r] =>
      destruct (Frontend.json r) as [json|] eqn:Hjson; [|tac]
  end;
  match goal with
  | |- context [property ?j "additional_args"] =>
      destruct (property j "additional_args") as [e|additional_args] eqn:Hargs;
        [tac|]
  end;
  match goal with
  | |- context [iterate ?v] =>
      destruct (iterate v) as [e|items] eqn:Hitems; [tac|]
  end;
  match goal with
  | |- context [prompt_each user ?l ?sent] =>
      destruct (prompt_each user l sent) as [[e|args_to_send] s1] eqn:Heach;
        [tac|]
  end.

(** Bring what [prompt_each] keeps of the session into the goal. *)
Ltac prompt_each_kept :=
  match goal with
  | H : prompt_each user ?l ?sent = (_, ?s1) |- _ =>
      let Hb := fresh "Hb" in
      let Hr := fresh "Hr" in
      destruct (prompt_each_browser user l sent) as [Hb Hr];
      rewrite H in Hb, Hr; simpl in Hb, Hr
  end.

Lemma promptForAdditionalArgs_nil (rounds : nat) (s : Session) :
  promptForAdditionalArgs rounds server user [] s = (Returned [], s).
Proof. destruct rounds; reflexivity. Qed.

(** [promptForAdditionalArgs] leaves the page and the requests of the
    simulation alone. *)
Lemma promptForAdditionalArgs_browser (rounds : nat)
    (arguments : list CLIArgument) (s : Session) :
  let s' := snd (promptForAdditionalArgs rounds server user arguments s) in
  Frontend.requests (browser s') = Frontend.requests (browser s) /\
  Frontend.page (browser s') = Frontend.page (browser s).
Proof.
  revert arguments s. induction rounds as [|rounds IH]; intros arguments s;
    (destruct arguments as [|a arguments]; [simpl; auto|]); [simpl; auto|].
  prompt_paths ltac:(first [solve [simpl; auto]
                           | prompt_each_kept; simpl; rewrite Hb; auto]).
  prompt_each_kept.
  specialize (IH args_to_send s1). simpl in IH.
  destruct (promptForAdditionalArgs rounds server user args_to_send s1)
    as [[more| |] s2]; simpl in *; rewrite <- Hb; exact IH.
Qed.

(** A refusal of the server is the last thing alerted. *)
Lemma promptForAdditionalArgs_error_alerted (rounds : nat)
    (arguments : list CLIArgument) (s : Session) (msg : string) :
  fst (promptForAdditionalArgs rounds server user arguments s)
    = Rejected (Error msg) ->
  last (Frontend.alerts
          (browser (snd (promptForAdditionalArgs rounds server user arguments s))))
    = Some msg /\
  exists text, msg = ("Error: " ++ text)%string.
Proof.
  revert arguments s. induction rounds as [|rounds IH]; intros arguments s;
    (destruct arguments as [|a arguments]; [discriminate|]); [discriminate|].
  prompt_paths ltac:(first [solve [simpl; discriminate]
                           | simpl; intros [= <-]; rewrite last_snoc; eauto]).
  specialize (IH args_to_send s1).
  destruct (promptForAdditionalArgs rounds server user args_to_send s1)
    as [[more| |] s2]; simpl in *; try discriminate. exact IH.
Qed.

(** X7: when [promptForAdditionalArgs] returns, the arguments it was given come
    first and unchanged; each argument after them was prompted for, with its
    display name as the message and in this order, and holds what the user
    replied to that prompt: the text typed, or [null] for a prompt that was
    cancelled. *)
Theorem promptForAdditionalArgs_appends (rounds : nat)
    (arguments result : list CLIArgument) (s s' : Session) :
  promptForAdditionalArgs rounds server user arguments s = (Returned result, s') ->
  exists more,
    result = arguments ++ more /\
    prompts s' = prompts s ++ List.map display_name more /\
    hold_replies user (prompts s) more.
Proof.
  revert arguments result s s'.
  induction rounds as [|rounds IH]; intros arguments result s s';
    (destruct arguments as [|a arguments];
     [intros [= <- <-]; exists []; simpl; rewrite !app_nil_r;
      repeat split; constructor|]);
    [simpl; discriminate|].
  prompt_paths ltac:(simpl; discriminate).
  destruct (promptForAdditionalArgs rounds server user args_to_send s1)
    as [[more'| |] s2] eqn:Hmore; try discriminate.
  intros [= <- <-].
  destruct (IH _ _ _ _ Hmore) as (more & -> & Hprompts & Hreplies).
  destruct (prompt_each_returns _ _ _ _ _ Heach)
    as (_ & Hshown & _ & _ & Hfirst).
  simpl in Hshown, Hfirst.
  exists (args_to_send ++ more). split; [reflexivity|]. split.
  - rewrite Hprompts, Hshown. rewrite List.map_app, <- app_assoc.
    reflexivity.
  - apply hold_replies_app; [exact Hfirst|].
    rewrite <- Hshown. exact Hreplies.
Qed.


(** X9: when [submit] is rejected with the [Error] of a refusal, the submit
    handler has not run: the page and the requests of the simulation are as
    they were, and the refusal is the last thing alerted. *)
Theorem submit_refused_before_handler (rounds : nat)
    (handler : list CLIArgument -> Frontend.Handler unit)
    (document : list (string * Input)) (args : JSValue) (s : Session)
    (msg : string) :
  fst (submit rounds server user handler document args s) = Rejected (Error msg) ->
  let s' := snd (submit rounds server user handler document args s) in
  Frontend.requests (browser s') = Frontend.requests (browser s) /\
  Frontend.page (browser s') = Frontend.page (browser s) /\
  last (Frontend.alerts (browser s')) = Some msg.
Proof.
  unfold submit. destruct args as [| | | | |items|]; try discriminate.
  destruct (fromJSON_each items) as [e|arguments]; [discriminate|].
  pose proof (promptForAdditionalArgs_browser rounds
                (List.map (read_input document) arguments) s) as Hkept.
  pose proof (promptForAdditionalArgs_error_alerted rounds
                (List.map (read_input document) arguments) s msg) as Halert.
  destruct (promptForAdditionalArgs rounds server user
              (List.map (read_input document) arguments) s)
    as [[result|r|] s1]; simpl in *.
  - destruct (fst (handler result (browser s1))); discriminate.
  - intros [= ->]. destruct Hkept as [Hreq Hpage].
    destruct (Halert eq_refl) as [Hlast _]. auto.
  - discriminate.
Qed.

End ConfigurationForm.

Section SubmitAndSimulate.
Import JS Form.

(** The simulate request is the first thing [simulate] sends. *)
Lemma simulate_requests_prefix (server : Frontend.Server) (simulation_type : string)
    (args : list CLIArgument) (b : Frontend.Browser) :
  exists rest,
    Frontend.requests (snd (Frontend.simulate server simulation_type args b)) =
      Frontend.requests b ++ Frontend.Simulate simulation_type args :: rest.
Proof.
  destruct (server (Frontend.requests b) (Frontend.Simulate simulation_type args))
    as [r|] eqn:Hr;
    [|exists []; unfold_handlers; rewrite Hr; reflexivity].
  destruct (Frontend.ok r) eqn:Hok;
    [|exists []; rewrite (simulate_refused _ _ _ _ _ Hr Hok); reflexivity].
  destruct (Frontend.json r) as [data|] eqn:Hjson;
    [|exists []; unfold_handlers; rewrite Hr, Hok; simpl; rewrite Hjson;
      reflexivity].
  destruct (property data "identifier") as [e|identifier] eqn:Hid;
    [exists []; unfold_handlers; rewrite Hr, Hok; simpl; rewrite Hjson, Hid;
     reflexivity|].
  exists [Frontend.GetSimulationResults identifier].
  rewrite (simulate_accepted _ _ _ _ _ _ _ Hr Hok Hjson Hid).
  rewrite getResults_requests. simpl. rewrite <- app_assoc. reflexivity.
Qed.

(** X10: with a server that names no further argument, [submit] on the
    simulation page prompts for nothing and sends the simulate request with
    the arguments of the template, each holding what the form gives it. *)
Theorem submit_sends_form_values (args_server : ArgsServer) (user : User)
    (server : Frontend.Server) (simulation_type : string) (rounds : nat)
    (document : list (string * Input)) (items : list JSValue)
    (arguments : list CLIArgument) (s : Session) :
  (forall log a, exists r json,
      args_server log a = Some r /\ Frontend.ok r = true /\
      Frontend.json r = Some json /\
      property json "additional_args" = inr (JSArray [])) ->
  fromJSON_each items = inr arguments ->
  let s' := snd (submit (S rounds) args_server user
                   (Frontend.simulate server simulation_type)
                   document (JSArray items) s) in
  prompts s' = prompts s /\
  exists rest,
    Frontend.requests (browser s') =
      Frontend.requests (browser s)
        ++ Frontend.Simulate simulation_type
             (List.map (read_input document) arguments) :: rest.
Proof.
  intros Hcontent Hargs s'. subst s'. unfold submit. rewrite Hargs.
  set (sent := List.map (read_input document) arguments).
  assert (Hprompt : exists s1,
            promptForAdditionalArgs (S rounds) args_server user sent s
              = (Returned sent, s1) /\
            browser s1 = browser s /\ prompts s1 = prompts s).
  { destruct sent as [|a sent]; [exists s; auto|].
    cbn [promptForAdditionalArgs].
    destruct (Hcontent (additional_requests s) (a :: sent))
      as (r & json & -> & -> & -> & ->).
    simpl. rewrite promptForAdditionalArgs_nil, app_nil_r. eauto. }
  destruct Hprompt as (s1 & -> & Hb & Hp). simpl. rewrite Hb.
  split; [exact Hp|]. apply simulate_requests_prefix.
Qed.

End SubmitAndSimulate.

Lemma read_input_value_witness :
  let arg' := Form.read_input Form.depot_form Form.depot_argument in
  JS.key arg' = JS.JSString "depot" /\
  JS.display_name arg' = JS.JSString "Depot" /\
  JS.type arg' = JS.JSString "str" /\
  JS.default_value arg' = JS.JSUndefined /\
  JS.value arg' = JS.JSString "DE000".
Proof.
  exact (read_input_value Form.depot_form Form.depot_argument "depot" eq_refl).
Defined.

Lemma promptForAdditionalArgs_appends_witness :
  exists more,
    [Form.depot_argument;
     JS.mkCLIArgument (JS.JSString "years") (JS.JSString "Years")
       (JS.JSString "int") (JS.JSString "10") JS.JSUndefined;
     JS.mkCLIArgument (JS.JSString "rate") (JS.JSString "Rate")
       (JS.JSString "float") JS.JSNull JS.JSUndefined]
      = [Form.depot_argument] ++ more /\
    [JS.JSString "Years"; JS.JSString "Rate"]
      = [] ++ List.map JS.display_name more /\
    Form.hold_replies Form.tiring_user [] more.
Proof.
  exact (promptForAdditionalArgs_appends Form.curious_server Form.tiring_user 3
           [Form.depot_argument] _ Form.initial_session
           (Form.mkSession Frontend.initial_browser
              [[Form.depot_argument];
               [JS.mkCLIArgument (JS.JSString "years") (JS.JSString "Years")
                  (JS.JSString "int") (JS.JSString "10") JS.JSUndefined;
                JS.mkCLIArgument (JS.JSString "rate") (JS.JSString "Rate")
                  (JS.JSString "float") JS.JSNull JS.JSUndefined]]
              [JS.JSString "Years"; JS.JSString "Rate"])
           eq_refl).
Defined.

Lemma submit_refused_before_handler_witness :
  let s' := snd (Form.submit 3 Form.refusing_args_server Form.ten_user
                   (Frontend.simulate Servers.ready_server "depot")
                   Form.depot_form (JS.JSArray Form.depot_args)
                   Form.initial_session) in
  Frontend.requests (Form.browser s') = [] /\
  Frontend.page (Form.browser s') = Frontend.initial_page /\
  last (Frontend.alerts (Form.browser s')) = Some "Error: Unknown argument"%string.
Proof.
  exact (submit_refused_before_handler Form.refusing_args_server Form.ten_user 3
           (Frontend.simulate Servers.ready_server "depot")
           Form.depot_form (JS.JSArray Form.depot_args) Form.initial_session
           "Error: Unknown argument" eq_refl).
Defined.

Lemma submit_sends_form_values_witness :
  let s' := snd (Form.submit 1 Form.content_server Form.ten_user
                   (Frontend.simulate Servers.ready_server "depot")
                   Form.depot_form (JS.JSArray Form.depot_args)
                   Form.initial_session) in
  Form.prompts s' = [] /\
  exists rest,
    Frontend.requests (Form.browser s') =
      [] ++ Frontend.Simulate "depot"
              (List.map (Form.read_input Form.depot_form)
                 [JS.mkCLIArgument (JS.JSString "depot") (JS.JSString "Depot")
                    (JS.JSString "str") JS.JSUndefined JS.JSUndefined;
                  JS.mkCLIArgument (JS.JSString "years") (JS.JSString "Years")
                    (JS.JSString "int") JS.JSUndefined (JS.JSNumber 5)])
           :: rest.
Proof.
  apply (submit_sends_form_values Form.content_server Form.ten_user
           Servers.ready_server "depot" 0 Form.depot_form Form.depot_args
           _ Form.initial_session).
  - intros log a. eexists _, _. repeat split; reflexivity.
  - reflexivity.
Defined.

(** The run of [submit] on the depot form: the depot is the text of its
    field, the years are switched off. *)
Example submit_depot_form :
  Frontend.requests
    (Form.browser
       (snd (Form.submit 1 Form.content_server Form.ten_user
               (Frontend.simulate Servers.ready_server "depot")
               Form.depot_form (JS.JSArray Form.depot_args)
               Form.initial_session))) =
    [Frontend.Simulate "depot"
       [JS.mkCLIArgument (JS.JSString "depot") (JS.JSString "Depot")
          (JS.JSString "str") (JS.JSString "DE000") JS.JSUndefined;
        JS.mkCLIArgument (JS.JSString "years") (JS.JSString "Years")
          (JS.JSString "int") JS.JSNull (JS.JSNumber 5)];
     Frontend.GetSimulationResults (JS.JSString "sim-7")].
Proof. reflexivity. Qed.

(** ** finance_plotter.ipynb: more on the scenarios *)

Section Scenarios.
Import Plotter.

Lemma lookup_map {A B} (f : A -> B) (l : list A) (i : nat) :
  List.map f l !! i = option_map f (l !! i).
Proof.
  revert i. induction l as [|x l IH]; intros [|i]; simpl; auto.
Qed.

Lemma Rpower_base_1 (y : R) : Rpower 1 y = 1%R.
Proof. unfold Rpower. rewrite ln_1, Rmult_0_r. apply exp_0. Qed.

(** A positive base has every power, the power with exponent 0 included. *)
Lemma float_pow_positive (x y : R) :
  (0 < x)%R -> float_pow (Some x) y = Some (Rpower x y).
Proof.
  intros Hx. unfold float_pow, real_pow.
  destruct (Req_dec_T y 0) as [->|_].
  - rewrite Rpower_O by exact Hx. reflexivity.
  - destruct (Rlt_dec 0 x); [reflexivity | contradiction].
Qed.

(** The scenario of a column that is there and has a first value. *)
Lemma scenario_at_key (df : DataFrame) (key : string) (depot : list pyfloat)
    (v0 r : pyfloat) :
  columns df !! key = Some depot ->
  head depot = Some v0 ->
  get_avg_return_scenario df r key =
    inr (List.map
           (fun i : Z =>
              float_mul v0 (float_pow (float_add (Some 1%R) r) (IZR i / 365)%R))
           (days_list df)).
Proof.
  intros Hcol Hhead. unfold get_avg_return_scenario.
  apply comprehension_total. intros i.
  unfold getitem, iloc_first. rewrite Hcol. simpl. rewrite Hhead. reflexivity.
Qed.

Lemma days_list_length (df : DataFrame) :
  length (days_list df) = length (Datum df).
Proof.
  unfold days_list. destruct (Datum df) as [|d l] eqn:E; [reflexivity|].
  apply length_map.
Qed.

Lemma comprehension_length {A B} (f : A -> PyError + B) (l : list A)
    (ys : list B) :
  comprehension f l = inr ys -> length ys = length l.
Proof.
  revert ys. induction l as [|x l IH]; intros ys; cbn [comprehension bind].
  - intros [= <-]. reflexivity.
  - destruct (f x) as [e|y]; [discriminate|]. cbn [bind].
    destruct (comprehension f l) as [e|ys']; [discriminate|]. cbn [bind].
    intros [= <-]. simpl. f_equal. apply IH. reflexivity.
Qed.

(** X11: an empty frame has the empty scenario, whether or not it has the
    column; a frame with rows needs the column (KeyError) and a first value
    in it (IndexError); and a scenario that is returned has a row for every
    row of the frame. *)
Theorem get_avg_return_scenario_rows (df : DataFrame) (r : pyfloat) (key : string) :
  (Datum df = [] -> get_avg_return_scenario df r key = inr []) /\
  (Datum df <> [] -> columns df !! key = None ->
   get_avg_return_scenario df r key = inl KeyError) /\
  (Datum df <> [] -> columns df !! key = Some [] ->
   get_avg_return_scenario df r key = inl IndexError) /\
  (forall scenario,
     get_avg_return_scenario df r key = inr scenario ->
     length scenario = length (Datum df)).
Proof.
  split; [|split; [|split]].
  - unfold get_avg_return_scenario, days_list. intros ->. reflexivity.
  - unfold get_avg_return_scenario, days_list, getitem.
    destruct (Datum df) as [|d l]; [contradiction|]. intros _ ->. reflexivity.
  - unfold get_avg_return_scenario, days_list, getitem, iloc_first.
    destruct (Datum df) as [|d l]; [contradiction|]. intros _ ->. reflexivity.
  - intros scenario Hs. unfold get_avg_return_scenario in Hs.
    rewrite (comprehension_length _ _ _ Hs). apply days_list_length.
Qed.

(** X12: with a return of zero the scenario is flat: every row has the first
    value of the column, whatever the dates are. *)
Theorem zero_return_scenario_is_flat (df : DataFrame) (key : string)
    (depot : list pyfloat) (v0 : R) :
  columns df !! key = Some depot ->
  head depot = Some (Some v0) ->
  get_avg_return_scenario df (Some 0%R) key =
    inr (List.map (fun _ => Some v0) (Datum df)).
Proof.
  intros Hcol Hhead. rewrite (scenario_at_key df key depot _ _ Hcol Hhead).
  f_equal. unfold days_list.
  destruct (Datum df) as [|d l]; [reflexivity|].
  rewrite List.map_map. apply List.map_ext. intros d'. simpl.
  replace (1 + 0)%R with 1%R by ring.
  rewrite float_pow_positive by lra. rewrite Rpower_base_1. simpl.
  f_equal. ring.
Qed.

End Scenarios.

Lemma zero_return_scenario_is_flat_witness :
  Plotter.get_avg_return_scenario Plotter.growing_frame (Some 0%R) "Depotwert" =
    inr [Some 100%R; Some 100%R].
Proof.
  exact (zero_return_scenario_is_flat Plotter.growing_frame "Depotwert"
           [Some 100%R; Some 110%R] 100 eq_refl eq_refl).
Defined.

(** ** finance_plotter.ipynb: load_data *)

Section LoadData.
Import Plotter.

(** X15: [load_data] raises before it computes anything when the frame has no
    column "Depotwert" (KeyError) or no row (IndexError), and when the first
    and the last date are the same day, as in a frame of one row
    (ZeroDivisionError). *)
Theorem load_data_raises (df : DataFrame) :
  (columns df !! "Depotwert" = None -> load_data df = inl KeyError) /\
  (columns df !! "Depotwert" = Some [] -> load_data df = inl IndexError) /\
  (forall depot : list pyfloat,
     columns df !! "Depotwert" = Some depot -> depot <> [] -> Datum df = [] ->
     load_data df = inl IndexError) /\
  (forall (depot : list pyfloat) (d : Z),
     columns df !! "Depotwert" = Some depot -> depot <> [] ->
     head (Datum df) = Some d -> last (Datum df) = Some d ->
     load_data df = inl ZeroDivisionError).
Proof.
  unfold load_data, getitem, iloc_last, iloc_first.
  split; [intros ->; reflexivity|]. split; [intros ->; reflexivity|]. split.
  - intros depot -> Hne ->.
    destruct depot as [|v depot]; [contradiction|]. cbn [bind].
    destruct (last (v :: depot)) eqn:Hlast; [reflexivity|].
    apply last_None in Hlast. discriminate.
  - intros depot d -> Hne Hhead Hlast. rewrite Hhead, Hlast.
    destruct depot as [|v depot]; [contradiction|]. cbn [bind].
    destruct (last (v :: depot)) eqn:Hl;
      [|apply last_None in Hl; discriminate].
    cbn [bind head]. rewrite Z.sub_diag. reflexivity.
Qed.

(** X16: when [load_data] returns, the frame has the dates it had, its columns
    as they were, and two more, "Avg scenario" and "Fixed scenario", with a
    value for every row: the scenarios of the average return it returns and
    of the fixed return of 7 percent. *)
Theorem load_data_adds_two_columns (df df' : DataFrame) (avg_return : pyfloat) :
  load_data df = inr (df', avg_return) ->
  Datum df' = Datum df /\
  exists avg fixed,
    columns df' =
      <["Fixed scenario" := fixed]> (<["Avg scenario" := avg]> (columns df)) /\
    get_avg_return_scenario df avg_return "Depotwert" = inr avg /\
    get_avg_return_scenario df FIXED_SCENARIO_RETURN "Depotwert" = inr fixed /\
    length avg = length (Datum df) /\
    length fixed = length (Datum df) /\
    forall key, key <> "Avg scenario" -> key <> "Fixed scenario" ->
                columns df' !! key = columns df !! key.
Proof.
  unfold load_data, getitem, iloc_last, iloc_first.
  destruct (columns df !! "Depotwert") as [depot|] eqn:Hcol; [|discriminate].
  cbn [bind].
  destruct (last depot) as [vn|]; [|discriminate]. cbn [bind].
  destruct (head depot) as [v0|] eqn:Hhead; [|discriminate]. cbn [bind].
  destruct (last (Datum df)) as [dn|]; [|discriminate]. cbn [bind].
  destruct (head (Datum df)) as [d0|]; [|discriminate]. cbn [bind].
  destruct (dn - d0 =? 0)%Z; [discriminate|].
  rewrite (scenario_at_key df "Depotwert" depot v0 _ Hcol Hhead). cbn [bind].
  erewrite (scenario_at_key (setitem df "Avg scenario" _) "Depotwert" depot v0);
    [| cbn [setitem columns]; rewrite lookup_insert_ne by discriminate; exact Hcol
     | exact Hhead].
  cbn [bind]. intros [= <- <-]. split; [reflexivity|].
  eexists _, _. split; [reflexivity|].
  split; [exact (scenario_at_key df "Depotwert" depot v0 _ Hcol Hhead)|].
  split; [rewrite (scenario_at_key df "Depotwert" depot v0 _ Hcol Hhead);
          reflexivity|].
  split; [rewrite length_map; apply days_list_length|].
  split; [rewrite length_map; apply (days_list_length df)|].
  intros key Havg Hfixed. cbn [setitem columns].
  rewrite !lookup_insert_ne by congruence. reflexivity.
Qed.

End LoadData.

Lemma load_data_adds_two_columns_witness :
  exists df' avg_return,
    Plotter.load_data Plotter.growing_frame = inr (df', avg_return) /\
    Plotter.Datum df' = [0; 365]%Z /\
    exists avg fixed,
      Plotter.columns df' =
        <["Fixed scenario" := fixed]>
          (<["Avg scenario" := avg]> (Plotter.columns Plotter.growing_frame)) /\
      Plotter.get_avg_return_scenario Plotter.growing_frame avg_return
        "Depotwert" = inr avg /\
      Plotter.get_avg_return_scenario Plotter.growing_frame
        Plotter.FIXED_SCENARIO_RETURN "Depotwert" = inr fixed /\
      length avg = 2 /\
      length fixed = 2 /\
      forall key, key <> "Avg scenario" -> key <> "Fixed scenario" ->
                  Plotter.columns df' !! key
                    = Plotter.columns Plotter.growing_frame !! key.
Proof.
  destruct (scenario_of_load_data Plotter.growing_frame [Some 100%R; Some 110%R]
              0 365 100 110 None eq_refl eq_refl eq_refl eq_refl eq_refl
              ltac:(lra) ltac:(lra) ltac:(lia))
    as (_ & df' & avg & scenario & Hload & _).
  exists df', (Some avg). split; [exact Hload|].
  exact (load_data_adds_two_columns Plotter.growing_frame df' (Some avg) Hload).
Defined.

(** ** finance_plotter.ipynb: the histogram and the bubble chart *)

Section ChartCells.
Import Plotter Charts.

Lemma differences_lookup (previous : pyfloat) (series : list pyfloat) (i : nat)
    (x y : pyfloat) :
  (previous :: series) !! i = Some x ->
  series !! i = Some y ->
  differences previous series !! i = Some (float_sub y x).
Proof.
  revert previous i. induction series as [|z series IH]; intros previous i;
    [intros _ Hy; destruct i; discriminate|].
  destruct i as [|i]; cbn [differences].
  - intros [= ->] [= ->]. reflexivity.
  - intros Hx Hy. apply (IH z i); assumption.
Qed.

Lemma differences_length (previous : pyfloat) (series : list pyfloat) :
  length (differences previous series) = length series.
Proof.
  revert previous. induction series as [|z series IH]; intros previous;
    [reflexivity|]. simpl. rewrite IH. reflexivity.
Qed.

(** X18: [diff] keeps the number of rows and puts nan in the first; the
    fluctuations of the histogram, without that first row, are one fewer
    than the rows of the column, and each of them is a value of the column
    minus the value of the row before it. *)
Theorem fluctuations_are_differences (depot : list pyfloat) :
  length (diff depot) = length depot /\
  (depot <> [] -> head (diff depot) = Some None) /\
  length (delta_depot_value depot) = length depot - 1 /\
  (forall (i : nat) (x y : pyfloat),
     depot !! i = Some x -> depot !! S i = Some y ->
     delta_depot_value depot !! i = Some (float_sub y x)).
Proof.
  unfold delta_depot_value.
  destruct depot as [|v depot]; cbn [diff tail].
  - repeat split; try reflexivity; try contradiction.
    intros i x y Hx. destruct i; discriminate.
  - split; [simpl; rewrite differences_length; reflexivity|].
    split; [reflexivity|].
    split; [simpl; rewrite differences_length; lia|].
    intros i x y Hx Hy. apply differences_lookup; assumption.
Qed.

Lemma filter_length_le {A} (p : A -> bool) (l : list A) :
  length (List.filter p l) <= length l.
Proof.
  induction l as [|x l IH]; simpl; [lia|]. destruct (p x); simpl; lia.
Qed.

Lemma filter_length_mono {A} (p q : A -> bool) (l : list A) :
  (forall x, p x = true -> q x = true) ->
  length (List.filter p l) <= length (List.filter q l).
Proof.
  intros Hpq. induction l as [|x l IH]; simpl; [lia|].
  destruct (p x) eqn:Hp.
  - rewrite (Hpq x Hp). simpl. lia.
  - destruct (q x); simpl; lia.
Qed.

Lemma share_le (n m k : nat) :
  0 < k -> n <= m -> (INR n / INR k <= INR m / INR k)%R.
Proof.
  intros Hk Hnm. apply Rmult_le_compat_r.
  - left. apply Rinv_0_lt_compat. apply lt_0_INR. exact Hk.
  - apply le_INR. exact Hnm.
Qed.

(** X19: the share of the fluctuations within [k] standard deviations of the
    median is a number from 0 to 1; without a fluctuation the division raises
    ZeroDivisionError; and with a standard deviation that is nan, as pandas
    gives for a single fluctuation, the share is 0. *)
Theorem share_within_stddev_bounds (delta : list pyfloat) (median stddev : pyfloat)
    (k : R) :
  (delta = [] ->
   calculate_share_of_values_being_within_stddev delta median stddev k
     = inl ZeroDivisionError) /\
  (delta <> [] ->
   exists share,
     calculate_share_of_values_being_within_stddev delta median stddev k
       = inr share /\
     (0 <= share <= 1)%R /\
     (stddev = None -> share = 0%R)).
Proof.
  split; [intros ->; reflexivity|].
  destruct delta as [|x delta]; [contradiction|]. intros _.
  unfold calculate_share_of_values_being_within_stddev.
  eexists. split; [reflexivity|].
  set (l := x :: delta).
  assert (Hlen : 0 < length l) by (simpl; lia).
  pose proof (filter_length_le (within_stddev median stddev k) l) as Hle.
  assert (Hpos : (0 < INR (length l))%R) by (apply lt_0_INR; exact Hlen).
  split; [split|].
  - apply Rmult_le_pos; [apply pos_INR|].
    left. apply Rinv_0_lt_compat. exact Hpos.
  - replace 1%R with (INR (length l) / INR (length l))%R by (field; lra).
    apply share_le; assumption.
  - intros ->.
    assert (Hnone : List.filter (within_stddev median None k) l = []).
    { clear. induction l as [|y l IH]; [reflexivity|].
      simpl. unfold within_stddev, float_mul, float_sub, float_le.
      destruct median; simpl; exact IH. }
    rewrite Hnone. simpl. lra.
Qed.

(** X20: a wider band holds at least as many fluctuations: the share does not
    fall when [k] grows. *)
Theorem share_within_stddev_grows (delta : list pyfloat) (median : pyfloat)
    (stddev k k' : R) :
  delta <> [] -> (0 <= stddev)%R -> (k <= k')%R ->
  exists share share',
    calculate_share_of_values_being_within_stddev delta median (Some stddev) k
      = inr share /\
    calculate_share_of_values_being_within_stddev delta median (Some stddev) k'
      = inr share' /\
    (share <= share')%R.
Proof.
  intros Hne Hsd Hk. destruct delta as [|x delta]; [contradiction|].
  unfold calculate_share_of_values_being_within_stddev.
  eexists _, _. split; [reflexivity|]. split; [reflexivity|].
  apply share_le; [simpl; lia|].
  apply filter_length_mono. intros i.
  unfold within_stddev, float_le, float_sub, float_add, float_mul.
  destruct median as [m|]; [|discriminate].
  destruct i as [v|]; [|discriminate].
  assert (Hband : (k * stddev <= k' * stddev)%R)
    by (apply Rmult_le_compat_r; assumption).
  destruct (Rle_dec (m - k * stddev) v); [|discriminate].
  destruct (Rle_dec v (m + k * stddev)); [|discriminate].
  intros _.
  destruct (Rle_dec (m - k' * stddev) v); [|lra].
  destruct (Rle_dec v (m + k' * stddev)); [reflexivity | lra].
Qed.

Lemma series_min_below (sizes : list pyfloat) (lo x : R) :
  series_min sizes = Some lo -> In (Some x) sizes -> (lo <= x)%R.
Proof.
  revert lo. induction sizes as [|[y|] sizes IH]; intros lo Hmin Hin;
    [contradiction| |].
  - simpl in Hmin. destruct (series_min sizes) as [m|] eqn:Hm.
    + injection Hmin as <-. destruct Hin as [[= ->]|Hin].
      * apply Rmin_l.
      * eapply Rle_trans; [apply Rmin_r | apply IH; auto].
    + injection Hmin as <-. destruct Hin as [[= ->]|Hin]; [lra|].
      exfalso. clear IH. induction sizes as [|[z|] sizes IH'];
        [contradiction| |].
      * simpl in Hm. destruct (series_min sizes); discriminate.
      * destruct Hin as [Hin|Hin]; [discriminate|]. auto.
  - destruct Hin as [Hin|Hin]; [discriminate|]. apply IH; assumption.
Qed.

Lemma series_max_above (sizes : list pyfloat) (hi x : R) :
  series_max sizes = Some hi -> In (Some x) sizes -> (x <= hi)%R.
Proof.
  revert hi. induction sizes as [|[y|] sizes IH]; intros hi Hmax Hin;
    [contradiction| |].
  - simpl in Hmax. destruct (series_max sizes) as [m|] eqn:Hm.
    + injection Hmax as <-. destruct Hin as [[= ->]|Hin].
      * apply Rmax_l.
      * eapply Rle_trans; [apply IH; auto | apply Rmax_r].
    + injection Hmax as <-. destruct Hin as [[= ->]|Hin]; [lra|].
      exfalso. clear IH. induction sizes as [|[z|] sizes IH'];
        [contradiction| |].
      * simpl in Hm. destruct (series_max sizes); discriminate.
      * destruct Hin as [Hin|Hin]; [discriminate|]. auto.
  - destruct Hin as [Hin|Hin]; [discriminate|]. apply IH; assumption.
Qed.

(** X21: in a column without gaps that takes more than one value, and whose
    span the subtraction holds, every bubble size lies from 0 to 1, the
    smallest value having size 0 and the largest size 1. *)
Theorem sizes_normalized_bounds (column : list R) (lo hi x : R) (i : nat) :
  series_min (List.map Some column) = Some lo ->
  series_max (List.map Some column) = Some hi ->
  lo <> hi ->
  (hi - lo < span_limit)%R ->
  column !! i = Some x ->
  exists y,
    sizes_normalized (List.map Some column) !! i = Some (Some y) /\
    (0 <= y <= 1)%R /\
    (x = lo -> y = 0%R) /\
    (x = hi -> y = 1%R).
Proof.
  intros Hmin Hmax Hne _ Hx.
  assert (Hin : In (Some x) (List.map Some column)).
  { apply in_map. apply list_elem_of_In, list_elem_of_lookup. eauto. }
  pose proof (series_min_below _ lo x Hmin Hin) as Hlo.
  pose proof (series_max_above _ hi x Hmax Hin) as Hhi.
  assert (Hspan : (0 < hi - lo)%R) by lra.
  unfold sizes_normalized, pyfloat in *.
  rewrite !lookup_map, Hx, Hmin, Hmax.
  simpl.
  destruct (Req_dec_T (hi - lo) 0); [lra|].
  eexists. split; [reflexivity|]. split; [split|split].
  - apply Rmult_le_pos; [lra|]. left. apply Rinv_0_lt_compat. exact Hspan.
  - apply Rmult_le_reg_r with (hi - lo)%R; [exact Hspan|].
    replace ((x - lo) / (hi - lo) * (hi - lo))%R with (x - lo)%R by (field; lra).
    lra.
  - intros ->. field. lra.
  - intros ->. field. lra.
Qed.

(** X22: when the largest value of the column is its smallest, as in a frame of
    one row or a depot that never moved, every bubble size is nan. *)
Theorem sizes_normalized_of_constant (sizes : list pyfloat) :
  series_min sizes = series_max sizes ->
  Forall (fun y => y = None) (sizes_normalized sizes).
Proof.
  intros Hsame. unfold sizes_normalized. rewrite Hsame.
  apply Forall_forall. intros y Hy.
  apply list_elem_of_In, in_map_iff in Hy as (x & <- & _).
  destruct (series_max sizes) as [m|]; destruct x as [x|]; simpl; try reflexivity.
  destruct (Req_dec_T (m - m) 0); [reflexivity | lra].
Qed.

End ChartCells.

Lemma share_within_stddev_grows_witness :
  exists share share',
    Charts.calculate_share_of_values_being_within_stddev Charts.sample_delta
      (Some 3%R) (Some 1%R) 1 = inr share /\
    Charts.calculate_share_of_values_being_within_stddev Charts.sample_delta
      (Some 3%R) (Some 1%R) 2 = inr share' /\
    (share <= share')%R.
Proof.
  apply (share_within_stddev_grows Charts.sample_delta (Some 3%R) 1 1 2).
  - discriminate.
  - lra.
  - lra.
Defined.

Lemma sizes_normalized_bounds_witness :
  exists y,
    Charts.sizes_normalized (List.map Some [100%R; 110%R]) !! 0
      = Some (Some y) /\
    (0 <= y <= 1)%R /\
    (100%R = Rmin 100 110 -> y = 0%R) /\
    (100%R = Rmax 100 110 -> y = 1%R).
Proof.
  apply (sizes_normalized_bounds [100%R; 110%R]
           (Rmin 100 110) (Rmax 100 110) 100 0).
  - reflexivity.
  - reflexivity.
  - unfold Rmin, Rmax. destruct (Rle_dec 100 110); lra.
  - unfold Rmin, Rmax, Charts.span_limit. destruct (Rle_dec 100 110); lra.
  - reflexivity.
Defined.

Lemma sizes_normalized_of_constant_witness :
  Forall (fun y => y = None) (Charts.sizes_normalized [Some 100%R]).
Proof.
  apply (sizes_normalized_of_constant [Some 100%R]). reflexivity.
Defined.

